(** * UrbanThread loyalty program: ledger, balance, spend and tier

    A shallow embedding of [src/app.py].  The SQLite database [loyalty.db]
    is a record of three tables, each a list of rows in insertion order;
    every SQL statement of the source is a function on that record.  The
    helper functions and the Streamlit pages are written in a small monad
    that threads the database and the feedback shown on screen, and that
    carries Python exceptions.

    Integers are Python integers (unbounded), modelled by [Z]; the 64-bit
    limit of SQLite's INTEGER storage class is outside the model.  Text is
    [string], compared byte by byte as SQLite's BINARY collation does.  The
    purchase amount typed into the Add Points page is a binary64 float;
    the yearly spending is kept as the exact rational it approximates. *)

From Stdlib Require Import ZArith QArith List String Ascii Bool Lia.
From Stdlib Require Import Permutation Sorted.
From Stdlib Require Import DecimalString DecimalZ DecimalPos.
From Stdlib Require Import PrimFloat FloatOps SpecFloat FloatAxioms.
From Stdlib Require Uint63.
Import ListNotations.

Open Scope string_scope.
Open Scope Z_scope.

(** ** Business constants (app.py, lines 7-8) *)

Definition POINTS_PER_DOLLAR : Z := 10.
Definition GOLD_TIER_THRESHOLD : Z := 500.

(** ** The database *)

(** Modelled from the spec: the schema of [loyalty.db] is created outside
    [src/]; the columns are the ones the SQL statements of app.py name. *)
Record Customer := mkCustomer {
  customer_id : Z;
  email : string;
  first_name : string;
  last_name : string;
  tier : string
}.

(** Modelled from the spec: a ledger row; [timestamp] is text in SQLite's
    [YYYY-MM-DD HH:MM:SS] form, filled in by the store on insertion. *)
Record LedgerEntry := mkLedgerEntry {
  ledger_customer_id : Z;
  points_change : Z;
  transaction_type : string;
  note : string;
  timestamp : string
}.

(** Modelled from the spec: a row of the reward catalog. *)
Record Reward := mkReward {
  reward_id : Z;
  name : string;
  points_cost : Z
}.

Record DB := mkDB {
  Customers : list Customer;
  PointsLedger : list LedgerEntry;
  Rewards : list Reward
}.

(** ** Python values used by the source *)

(** [str(n)] and [f"{n}"] for an integer. *)
Definition str_of_int (n : Z) : string :=
  NilZero.string_of_int (Z.to_int n).

(** Exceptions the modelled code can raise, with the text of [str(e)]. *)
Inductive exn :=
| TypeError (msg : string)
| KeyError (msg : string)
| ValueError (msg : string)
| OverflowError (msg : string).

Definition exn_str (e : exn) : string :=
  match e with
  | TypeError m | KeyError m | ValueError m | OverflowError m => m
  end.

(** Feedback written to the page: [st.success], [st.warning], [st.error]. *)
Inductive Message :=
| success (text : string)
| warning (text : string)
| error (text : string).

(** ** The monad of the script: database, screen, exceptions *)

Record World := mkWorld {
  db : DB;
  screen : list Message
}.

Inductive outcome (A : Type) :=
| Return (a : A)
| Raise (e : exn).
Arguments Return {A} a.
Arguments Raise {A} e.

Definition Py (A : Type) : Type := World -> outcome A * World.

Definition ret {A} (a : A) : Py A := fun w => (Return a, w).

Definition bind {A B} (m : Py A) (k : A -> Py B) : Py B :=
  fun w =>
    match m w with
    | (Return a, w') => k a w'
    | (Raise e, w') => (Raise e, w')
    end.

Definition raise {A} (e : exn) : Py A := fun w => (Raise e, w).

(** [try: body except Exception as e: handler(e)].  What [body] wrote
    before raising stays written. *)
Definition try_except {A} (body : Py A) (handler : exn -> Py A) : Py A :=
  fun w =>
    match body w with
    | (Return a, w') => (Return a, w')
    | (Raise e, w') => handler e w'
    end.

Declare Scope py_scope.
Delimit Scope py_scope with py.
Notation "x <- m ;; k" := (bind m (fun x => k))
  (at level 100, m at next level, right associativity) : py_scope.
Notation "m ;; k" := (bind m (fun _ => k))
  (at level 100, right associativity) : py_scope.
Open Scope py_scope.

(** A SELECT: reads the database, changes nothing. *)
Definition query {A} (q : DB -> A) : Py A :=
  fun w => (Return (q (db w)), w).

(** An INSERT or UPDATE followed by [conn.commit()]. *)
Definition execute (stmt : DB -> DB) : Py unit :=
  fun w => (Return tt, mkWorld (stmt (db w)) (screen w)).

Definition st_message (m : Message) : Py unit :=
  fun w => (Return tt, mkWorld (db w) (screen w ++ [m])).

Definition st_success (text : string) : Py unit := st_message (success text).
Definition st_warning (text : string) : Py unit := st_message (warning text).
Definition st_error (text : string) : Py unit := st_message (error text).

(** ** SQL statements *)

(** [SUM(col)] over the selected rows: NULL when no row is selected. *)
Definition sql_sum (xs : list Z) : option Z :=
  match xs with
  | [] => None
  | _ => Some (fold_left Z.add xs 0)
  end.

(** [SELECT * FROM Customers WHERE email = ?], [fetchone()]. *)
Definition select_customer_by_email (e : string) (d : DB) : option Customer :=
  find (fun c => String.eqb (email c) e) (Customers d).

(** [SELECT SUM(points_change) FROM PointsLedger WHERE customer_id = ?]. *)
Definition select_sum_points (cid : Z) (d : DB) : option Z :=
  sql_sum (map points_change
             (filter (fun l => ledger_customer_id l =? cid) (PointsLedger d))).

(** [x BETWEEN lo AND hi] on text. *)
Definition text_between (x lo hi : string) : bool :=
  String.leb lo x && String.leb x hi.

(** [SELECT SUM(points_change) FROM PointsLedger WHERE customer_id = ?
     AND transaction_type = 'earn' AND timestamp BETWEEN ? AND ?]. *)
Definition select_sum_earned (cid : Z) (lo hi : string) (d : DB) : option Z :=
  sql_sum (map points_change
             (filter (fun l => (ledger_customer_id l =? cid)
                               && String.eqb (transaction_type l) "earn"
                               && text_between (timestamp l) lo hi)
                     (PointsLedger d))).

(** [INSERT INTO PointsLedger (customer_id, points_change,
     transaction_type, note) VALUES (?, ?, ?, ?)].
    The statement supplies no [timestamp]: the store fills the column in
    from its own clock, whose reading is [now]. *)
Definition insert_ledger (now : string) (cid points : Z) (ty nt : string)
    (d : DB) : DB :=
  mkDB (Customers d)
       (PointsLedger d ++ [mkLedgerEntry cid points ty nt now])
       (Rewards d).

(** [SELECT tier FROM Customers WHERE customer_id = ?], [fetchone()]. *)
Definition select_tier (cid : Z) (d : DB) : option string :=
  option_map tier (find (fun c => customer_id c =? cid) (Customers d)).

(** [UPDATE Customers SET tier = ? WHERE customer_id = ?]. *)
Definition update_tier (new_tier : string) (cid : Z) (d : DB) : DB :=
  mkDB (map (fun c => if customer_id c =? cid
                      then mkCustomer (customer_id c) (email c) (first_name c)
                                      (last_name c) new_tier
                      else c)
            (Customers d))
       (PointsLedger d)
       (Rewards d).

(** [ORDER BY points_cost ASC]: rows of equal cost keep their table order. *)
Fixpoint insert_by_cost (r : Reward) (rs : list Reward) : list Reward :=
  match rs with
  | [] => [r]
  | r' :: rs' => if points_cost r' <=? points_cost r
                 then r' :: insert_by_cost r rs'
                 else r :: rs
  end.

Definition order_by_cost (rs : list Reward) : list Reward :=
  fold_left (fun acc r => insert_by_cost r acc) rs [].

(** [SELECT reward_id, name, points_cost FROM Rewards
     ORDER BY points_cost ASC]. *)
Definition select_rewards (d : DB) : list Reward :=
  order_by_cost (Rewards d).

(** ** Database helper functions (app.py, lines 19-111) *)

Definition get_customer_by_email (e : string) : Py (option Customer) :=
  query (select_customer_by_email e).

Definition get_customer_point_balance (cid : Z) : Py Z :=
  result <- query (select_sum_points cid) ;;
  ret (match result with Some v => v | None => 0 end).

Definition get_available_rewards : Py (list Reward) :=
  query select_rewards.

Definition add_points_transaction (now : string) (cid points : Z)
    (ty nt : string) : Py unit :=
  execute (insert_ledger now cid points ty nt).

(** [current_year] is [datetime.now().year], read from the clock.
    Python's [/] yields the double nearest to the quotient; the model
    keeps the quotient itself, a rational.  Rounding to nearest is
    monotone and 500 is a double, so the comparison of line 99 against
    the threshold comes out the same on both. *)
Definition get_customer_spending_this_year (current_year : Z) (cid : Z)
    : Py Q :=
  let start_of_year := str_of_int current_year ++ "-01-01 00:00:00" in
  let end_of_year := str_of_int current_year ++ "-12-31 23:59:59" in
  result <- query (select_sum_earned cid start_of_year end_of_year) ;;
  let points_earned_this_year :=
    match result with Some v => v | None => 0 end in
  ret (inject_Z points_earned_this_year / inject_Z POINTS_PER_DOLLAR)%Q.

(** Line 99: the tier for a yearly spending. *)
Definition tier_for_spending (spending : Q) : string :=
  if Qle_bool (inject_Z GOLD_TIER_THRESHOLD) spending
  then "Gold" else "Standard".

Definition update_customer_tier (current_year : Z) (cid : Z) : Py unit :=
  spending <- get_customer_spending_this_year current_year cid ;;
  let new_tier := tier_for_spending spending in
  row <- query (select_tier cid) ;;
  match row with
  | None => raise (TypeError "'NoneType' object is not subscriptable")
  | Some current_tier =>
      if negb (String.eqb new_tier current_tier)
      then execute (update_tier new_tier cid) ;;
           st_success ("Customer tier updated to " ++ new_tier ++ "!")
      else ret tt
  end.

(** ** Python helpers used by the pages *)

(** [int(x)] for a float: truncation toward zero. *)
Definition int_of_float (x : float) : outcome Z :=
  match Prim2SF x with
  | S754_zero _ => Return 0
  | S754_infinity _ =>
      Raise (OverflowError "cannot convert float infinity to integer")
  | S754_nan => Raise (ValueError "cannot convert float NaN to integer")
  | S754_finite s m e =>
      let magnitude := Z.shiftl (Z.pos m) e in
      Return (if s then - magnitude else magnitude)
  end.

(** [float(n)] for a small non-negative integer. *)
Definition float_of_small_int (n : Z) : float :=
  PrimFloat.of_uint63 (Uint63.of_Z n).

(** [not x] for a float: true for [0.0] and [-0.0] only. *)
Definition float_is_falsy (x : float) : bool := PrimFloat.eqb x 0%float.

(** [not s] for a string. *)
Definition str_is_falsy (s : string) : bool :=
  match s with EmptyString => true | _ => false end.

(** [s.split(sep)[0]]: the part of [s] before the first [sep]. *)
Definition split_head (sep s : string) : string :=
  match index 0 sep s with
  | Some n => substring 0 n s
  | None => s
  end.

(** A Python [dict] with text keys: keys in order of first insertion, a
    later value for a key replaces the earlier one. *)
Definition dict (V : Type) : Type := list (string * V).

Fixpoint dict_set {V} (k : string) (v : V) (d : dict V) : dict V :=
  match d with
  | [] => [(k, v)]
  | (k', v') :: d' => if String.eqb k' k then (k', v) :: d'
                      else (k', v') :: dict_set k v d'
  end.

Fixpoint dict_get {V} (k : string) (d : dict V) : option V :=
  match d with
  | [] => None
  | (k', v') :: d' => if String.eqb k' k then Some v' else dict_get k d'
  end.

Definition dict_keys {V} (d : dict V) : list string := map fst d.

(** The clocks the script reads: [datetime.now().year] of the application
    and the store's own timestamp for a new row. *)
Record Clock := mkClock {
  now_year : Z;
  CURRENT_TIMESTAMP : string
}.

(** ** The pages that write (app.py, lines 182-278)

    Widget values are the arguments; [button] tells whether the page's
    button was pressed in this run of the script.  Headers, [st.write],
    [st.metric] and [st.balloons] only draw and are left out. *)

(** Line 224: the label of a reward in the select box. *)
Definition reward_label (r : Reward) : string :=
  name r ++ " (" ++ str_of_int (points_cost r) ++ " Points)".

Definition reward_options_of (rewards : list Reward) : dict Z :=
  fold_left (fun d r => dict_set (reward_label r) (reward_id r) d) rewards [].

Definition page_add_points (clk : Clock) (customer_email : string)
    (purchase_amount : float) (order_id : string) (button : bool) : Py unit :=
  if button then
    if str_is_falsy customer_email || float_is_falsy purchase_amount
       || str_is_falsy order_id
    then st_warning "Please fill in all fields."
    else
      customer <- get_customer_by_email customer_email ;;
      match customer with
      | Some customer =>
          match int_of_float
                  (purchase_amount * float_of_small_int POINTS_PER_DOLLAR)%float
          with
          | Raise e => raise e
          | Return points_to_add =>
              let transaction_note := "Order #" ++ order_id in
              try_except
                (add_points_transaction (CURRENT_TIMESTAMP clk)
                   (customer_id customer) points_to_add "earn"
                   transaction_note ;;
                 st_success ("Successfully added " ++ str_of_int points_to_add
                             ++ " points for customer " ++ customer_email
                             ++ " (Order: " ++ order_id ++ ").") ;;
                 update_customer_tier (now_year clk) (customer_id customer))
                (fun e => st_error ("Failed to add points: " ++ exn_str e))
          end
      | None => st_error "Customer email not found."
      end
  else ret tt.

Definition page_redeem_reward (clk : Clock) (customer_email : string)
    (selected_reward_display : string) (button : bool) : Py unit :=
  if negb (str_is_falsy customer_email) then
    customer <- get_customer_by_email customer_email ;;
    match customer with
    | Some customer =>
        current_balance <- get_customer_point_balance (customer_id customer) ;;
        rewards <- get_available_rewards ;;
        match rewards with
        | [] => st_warning "No rewards currently available."
        | _ =>
            let reward_options := reward_options_of rewards in
            if button then
              match dict_get selected_reward_display reward_options with
              | None => raise (KeyError selected_reward_display)
              | Some selected_reward_id =>
                  let selected_reward_cost :=
                    option_map points_cost
                      (find (fun r => reward_id r =? selected_reward_id)
                            rewards) in
                  match selected_reward_cost with
                  | None => st_error "Selected reward not found."
                  | Some selected_reward_cost =>
                      if selected_reward_cost <=? current_balance then
                        try_except
                          (add_points_transaction (CURRENT_TIMESTAMP clk)
                             (customer_id customer) (- selected_reward_cost)
                             "redeem"
                             ("Redeemed: "
                              ++ split_head " (" selected_reward_display) ;;
                           st_success
                             ("Successfully redeemed "
                              ++ selected_reward_display ++ "! "
                              ++ str_of_int selected_reward_cost
                              ++ " points deducted."))
                          (fun e =>
                             st_error ("Failed to redeem reward: "
                                       ++ exn_str e))
                      else st_error "Insufficient points to redeem this reward."
                  end
              end
            else ret tt
        end
    | None => st_error "Customer email not found."
    end
  else ret tt.

Definition page_customer_service (clk : Clock) (customer_email : string)
    (points_to_adjust : Z) (reason : string) (button : bool) : Py unit :=
  if button then
    if str_is_falsy customer_email || (points_to_adjust =? 0)
       || str_is_falsy reason
    then st_warning "Please fill in all fields (Points cannot be zero)."
    else
      customer <- get_customer_by_email customer_email ;;
      match customer with
      | Some customer =>
          try_except
            (add_points_transaction (CURRENT_TIMESTAMP clk)
               (customer_id customer) points_to_adjust "manual_adjust"
               reason ;;
             st_success ("Successfully adjusted points by "
                         ++ str_of_int points_to_adjust ++ " for "
                         ++ customer_email ++ ". Reason: " ++ reason) ;;
             update_customer_tier (now_year clk) (customer_id customer))
            (fun e => st_error ("Failed to adjust points: " ++ exn_str e))
      | None => st_error "Customer email not found."
      end
  else ret tt.

(** ** A sample database *)

Definition alice : Customer :=
  mkCustomer 1 "alice@example.com" "Alice" "Archer" "Standard".

Definition sample_rewards : list Reward :=
  [mkReward 2 "Tote Bag" 800; mkReward 1 "Sticker" 100;
   mkReward 3 "Jacket" 10000].

Definition db0 : DB := mkDB [alice] [] sample_rewards.
Definition w0 : World := mkWorld db0 [].
Definition clk2024 : Clock := mkClock 2024 "2024-06-15 12:00:00".

(** ** Specification-side notions *)

(** The ledger entries of a customer, in insertion order. *)
Definition entries_of (cid : Z) (d : DB) : list LedgerEntry :=
  filter (fun l => ledger_customer_id l =? cid) (PointsLedger d).

(** The sum of [points_change] over a list of entries. *)
Definition sum_points (ls : list LedgerEntry) : Z :=
  fold_right (fun l acc => points_change l + acc) 0 ls.






(** The [earn] entries of a customer whose timestamp text lies between the
    two bounds the source builds for [year]. *)
Definition earn_entries_in_year (year cid : Z) (d : DB) : list LedgerEntry :=
  filter (fun l => (ledger_customer_id l =? cid)
                   && String.eqb (transaction_type l) "earn"
                   && text_between (timestamp l)
                        (str_of_int year ++ "-01-01 00:00:00")
                        (str_of_int year ++ "-12-31 23:59:59"))
         (PointsLedger d).

(** The spending the source derives for [year]: points earned over 10. *)
Definition spending_of (year cid : Z) (d : DB) : Q :=
  (inject_Z (sum_points (earn_entries_in_year year cid d))
   / inject_Z POINTS_PER_DOLLAR)%Q.

Definition tier_message (new_tier : string) : Message :=
  success ("Customer tier updated to " ++ new_tier ++ "!").

(** Alice has earned 5000 points in 2024 and is still stored as Standard. *)
Definition w_due : World :=
  mkWorld (mkDB [alice]
                [mkLedgerEntry 1 5000 "earn" "Order #7" "2024-03-01 10:00:00"]
                sample_rewards)
          [].

(** The same ledger, with Gold already stored. *)
Definition w_gold : World :=
  mkWorld (mkDB [mkCustomer 1 "alice@example.com" "Alice" "Archer" "Gold"]
                [mkLedgerEntry 1 5000 "earn" "Order #7" "2024-03-01 10:00:00"]
                sample_rewards)
          [].

(** ** Timestamps as the store writes them *)

(** A calendar date and a time of day. *)
Record datetime := mkDatetime {
  dt_year : Z;
  dt_month : Z;
  dt_day : Z;
  dt_hour : Z;
  dt_minute : Z;
  dt_second : Z
}.

Definition digit (n : Z) : ascii := ascii_of_N (48 + Z.to_N n).

Definition two_digits (n : Z) : string :=
  String (digit (n / 10)) (String (digit (n mod 10)) "").

Definition four_digits (n : Z) : string :=
  two_digits (n / 100) ++ two_digits (n mod 100).

(** Modelled from the spec: the text SQLite stores for a point in time,
    [YYYY-MM-DD HH:MM:SS]; the table's timestamp default is not in [src/]. *)
Definition sqlite_datetime (t : datetime) : string :=
  four_digits (dt_year t) ++ "-" ++ two_digits (dt_month t) ++ "-"
  ++ two_digits (dt_day t) ++ " " ++ two_digits (dt_hour t) ++ ":"
  ++ two_digits (dt_minute t) ++ ":" ++ two_digits (dt_second t).

(** Field ranges of a date the store can write, with a four-digit year. *)
Definition valid_datetime (t : datetime) : Prop :=
  1000 <= dt_year t <= 9999 /\ 1 <= dt_month t <= 12 /\ 1 <= dt_day t <= 31
  /\ 0 <= dt_hour t <= 23 /\ 0 <= dt_minute t <= 59 /\ 0 <= dt_second t <= 59.

(** Lexicographic composition of two comparisons. *)
Definition lex (c1 c2 : comparison) : comparison :=
  match c1 with Eq => c2 | _ => c1 end.

(** Chronological order of two dates, field by field. *)
Definition datetime_compare (a b : datetime) : comparison :=
  lex (dt_year a ?= dt_year b)
   (lex (dt_month a ?= dt_month b)
    (lex (dt_day a ?= dt_day b)
     (lex (dt_hour a ?= dt_hour b)
      (lex (dt_minute a ?= dt_minute b)
           (dt_second a ?= dt_second b))))).

Definition comparison_eqb (c1 c2 : comparison) : bool :=
  match c1, c2 with
  | Eq, Eq | Lt, Lt | Gt, Gt => true
  | _, _ => false
  end.

(** The integers from 0 up to, not including, [n]. *)
Definition upto (n : Z) : list Z := map Z.of_nat (seq 0 (Z.to_nat n)).

(** Ranges in which every field prints with its fixed number of digits. *)
Definition printable_datetime (t : datetime) : Prop :=
  0 <= dt_year t < 10000 /\ 0 <= dt_month t < 100 /\ 0 <= dt_day t < 100
  /\ 0 <= dt_hour t < 100 /\ 0 <= dt_minute t < 100 /\ 0 <= dt_second t < 100.

(** The first and the last second of a calendar year. *)
Definition start_of_year (year : Z) : datetime := mkDatetime year 1 1 0 0 0.
Definition end_of_year (year : Z) : datetime := mkDatetime year 12 31 23 59 59.

(** ** Notions used to state what the pages do *)

(** The world after one more message on the screen. *)
Definition say (w : World) (m : Message) : World :=
  mkWorld (db w) (screen w ++ [m]).

(** The closed enumeration of transaction types. *)
Definition known_type (ty : string) : Prop :=
  ty = "earn" \/ ty = "redeem" \/ ty = "manual_adjust".

(** The world in which [page_add_points] calls [update_customer_tier]. *)
Definition after_earn (clk : Clock) (customer_email order_id : string)
    (cid points : Z) (w : World) : World :=
  mkWorld (insert_ledger (CURRENT_TIMESTAMP clk) cid points "earn"
             ("Order #" ++ order_id) (db w))
          (screen w
           ++ [success ("Successfully added " ++ str_of_int points
                        ++ " points for customer " ++ customer_email
                        ++ " (Order: " ++ order_id ++ ").")]).

(** The world in which [page_customer_service] calls
    [update_customer_tier]. *)
Definition after_adjust (clk : Clock) (customer_email reason : string)
    (cid points : Z) (w : World) : World :=
  mkWorld (insert_ledger (CURRENT_TIMESTAMP clk) cid points "manual_adjust"
             reason (db w))
          (screen w
           ++ [success ("Successfully adjusted points by "
                        ++ str_of_int points ++ " for " ++ customer_email
                        ++ ". Reason: " ++ reason)]).

(** The world a successful redemption leaves. *)
Definition after_redeem (clk : Clock) (selected_reward_display : string)
    (cid cost : Z) (w : World) : World :=
  mkWorld (insert_ledger (CURRENT_TIMESTAMP clk) cid (- cost) "redeem"
             ("Redeemed: " ++ split_head " (" selected_reward_display) (db w))
          (screen w
           ++ [success ("Successfully redeemed " ++ selected_reward_display
                        ++ "! " ++ str_of_int cost ++ " points deducted.")]).

Definition insufficient_points : Message :=
  error "Insufficient points to redeem this reward.".

(** Alice after the two purchases of the end-to-end scenario. *)
Definition w_5500 : World :=
  mkWorld (mkDB [mkCustomer 1 "alice@example.com" "Alice" "Archer" "Gold"]
                [mkLedgerEntry 1 1000 "earn" "Order #1" "2024-02-01 09:00:00";
                 mkLedgerEntry 1 4500 "earn" "Order #2" "2024-04-01 09:00:00"]
                sample_rewards)
          [].

(** What the Redeem page must do with a request of cost [cost] by customer
    [cid], where [r] is the run of the page on [w]: with enough balance,
    one [redeem] entry of [- cost] and nothing else; otherwise the
    insufficient-points error and no write. *)
Definition redemption_outcome (clk : Clock) (display : string) (w : World)
    (cid cost : Z) (r : outcome unit * World) : Prop :=
  let balance := sum_points (entries_of cid (db w)) in
  (cost <= balance ->
   fst r = Return tt
   /\ PointsLedger (db (snd r))
      = (PointsLedger (db w)
         ++ [mkLedgerEntry cid (- cost) "redeem"
               ("Redeemed: " ++ split_head " (" display)
               (CURRENT_TIMESTAMP clk)])%list
   /\ Customers (db (snd r)) = Customers (db w)
   /\ fst (get_customer_point_balance cid (snd r)) = Return (balance - cost))
  /\ (balance < cost ->
      fst r = Return tt
      /\ db (snd r) = db w
      /\ screen (snd r) = (screen w ++ [insufficient_points])%list
      /\ fst (get_customer_point_balance cid (snd r)) = Return balance).

(** ** The history query (app.py, lines 37-49) *)

(** A row of the history: the four columns the query selects. *)
Record HistoryRow := mkHistoryRow {
  history_timestamp : string;
  history_transaction_type : string;
  history_points_change : Z;
  history_note : string
}.

Definition history_row_of (l : LedgerEntry) : HistoryRow :=
  mkHistoryRow (timestamp l) (transaction_type l) (points_change l) (note l).

(** [ORDER BY timestamp DESC]: rows of equal timestamp keep their table
    order. *)
Fixpoint insert_by_timestamp_desc (h : HistoryRow) (hs : list HistoryRow)
    : list HistoryRow :=
  match hs with
  | [] => [h]
  | h' :: hs' =>
      if String.leb (history_timestamp h) (history_timestamp h')
      then h' :: insert_by_timestamp_desc h hs'
      else h :: hs
  end.

Definition order_by_timestamp_desc (hs : list HistoryRow) : list HistoryRow :=
  fold_left (fun acc h => insert_by_timestamp_desc h acc) hs [].

(** [SELECT timestamp, transaction_type, points_change, note
     FROM PointsLedger WHERE customer_id = ? ORDER BY timestamp DESC]. *)
Definition select_history (cid : Z) (d : DB) : list HistoryRow :=
  order_by_timestamp_desc
    (map history_row_of
       (filter (fun l => ledger_customer_id l =? cid) (PointsLedger d))).

Definition get_customer_point_history (cid : Z) : Py (list HistoryRow) :=
  query (select_history cid).

(** The sum of the points shown in a history. *)
Definition history_total (hs : list HistoryRow) : Z :=
  fold_right (fun h acc => history_points_change h + acc) 0 hs.

(** Ascending order of cost, and newest-first order of timestamp text. *)
Definition cost_le (a b : Reward) : Prop := points_cost a <= points_cost b.

Definition not_older_text (a b : HistoryRow) : Prop :=
  String.leb (history_timestamp b) (history_timestamp a) = true.

(** [a] is not older than [b], whenever both timestamps are the store's
    text for valid dates. *)
Definition not_older (a b : HistoryRow) : Prop :=
  forall ta tb : datetime,
    valid_datetime ta -> valid_datetime tb ->
    history_timestamp a = sqlite_datetime ta ->
    history_timestamp b = sqlite_datetime tb ->
    datetime_compare ta tb <> Lt.

(** ** Notions used to state what the tier update keeps *)

(** [c'] is the row [c] with at most its tier changed, and is [c] itself
    unless the row belongs to customer [cid]. *)
Definition same_customer_but_tier (cid : Z) (c c' : Customer) : Prop :=
  customer_id c' = customer_id c /\ email c' = email c
  /\ first_name c' = first_name c /\ last_name c' = last_name c
  /\ (customer_id c <> cid -> c' = c).

(** The points a customer earned in a year, as the spending query sees
    them. *)
Definition points_earned (year cid : Z) (d : DB) : Z :=
  sum_points (earn_entries_in_year year cid d).

(** Alice, stored as Gold, with purchases in 2024 only. *)
Definition w_gold_2024 : World :=
  mkWorld (mkDB [mkCustomer 1 "alice@example.com" "Alice" "Archer" "Gold"]
                [mkLedgerEntry 1 6000 "earn" "Order #9" "2024-11-30 18:30:00"]
                sample_rewards)
          [].

(** ** Sessions: runs of the script one after another *)

(** One run of the script on one of the three pages that write, with the
    values of its widgets. *)
Inductive page_run :=
| AddPoints (clk : Clock) (customer_email : string) (purchase_amount : float)
    (order_id : string) (button : bool)
| RedeemReward (clk : Clock) (customer_email selected_reward_display : string)
    (button : bool)
| CustomerService (clk : Clock) (customer_email : string)
    (points_to_adjust : Z) (reason : string) (button : bool).

Definition run_page (p : page_run) : Py unit :=
  match p with
  | AddPoints clk e a o b => page_add_points clk e a o b
  | RedeemReward clk e s b => page_redeem_reward clk e s b
  | CustomerService clk e n r b => page_customer_service clk e n r b
  end.

(** The world after a list of runs.  A run that raises stops there; what
    it had written stays, and the next run starts from it. *)
Fixpoint run_session (ps : list page_run) (w : World) : World :=
  match ps with
  | [] => w
  | p :: rest => run_session rest (snd (run_page p w))
  end.

(** [c'] is the row [c] with its id, email and names, and with its tier
    either kept or set to one of the two tiers the program writes. *)
Definition kept_customer (c c' : Customer) : Prop :=
  customer_id c' = customer_id c /\ email c' = email c
  /\ first_name c' = first_name c /\ last_name c' = last_name c
  /\ (tier c' = tier c \/ tier c' = "Gold" \/ tier c' = "Standard").

(** An entry a page may add to a database with customer table [cs]. *)
Definition page_entry (cs : list Customer) (e : LedgerEntry) : Prop :=
  known_type (transaction_type e)
  /\ In (ledger_customer_id e) (map customer_id cs).

(** Runs that take no points away: purchases of an amount above zero,
    redemptions, and adjustments by a non-negative number of points. *)
Definition takes_nothing_unearned (p : page_run) : Prop :=
  match p with
  | AddPoints _ _ amount _ _ => (0 <? amount)%float = true
  | RedeemReward _ _ _ _ => True
  | CustomerService _ _ points _ _ => 0 <= points
  end.

Example run_add_points_demo :
  PointsLedger (db (snd (page_add_points clk2024 "alice@example.com"
                           100%float "A-1" true w0)))
  = [mkLedgerEntry 1 1000 "earn" "Order #A-1" "2024-06-15 12:00:00"].
Proof. vm_compute. reflexivity. Qed.

(** ** Basic facts *)

Lemma fold_left_add_shift (xs : list Z) (a : Z) :
  fold_left Z.add xs a = a + fold_left Z.add xs 0.
Proof.
  revert a. induction xs as [|x xs IH]; intros a; simpl.
  - lia.
  - rewrite IH, (IH x). lia.
Qed.

Lemma sql_sum_sum_points (ls : list LedgerEntry) :
  match sql_sum (map points_change ls) with
  | Some v => v
  | None => 0
  end = sum_points ls.
Proof.
  assert (H : fold_left Z.add (map points_change ls) 0 = sum_points ls).
  { induction ls as [|x xs IH]; [reflexivity|].
    cbn [map fold_left sum_points fold_right].
    rewrite fold_left_add_shift, IH. fold (sum_points xs). lia. }
  destruct ls as [|l ls]; [reflexivity|].
  unfold sql_sum. cbn [map]. exact H.
Qed.

Lemma sum_points_app (xs ys : list LedgerEntry) :
  sum_points (xs ++ ys) = sum_points xs + sum_points ys.
Proof.
  induction xs as [|x xs IH]; simpl; [reflexivity|].
  fold (sum_points (xs ++ ys)). fold (sum_points xs). lia.
Qed.

Lemma get_customer_point_balance_run (cid : Z) (w : World) :
  get_customer_point_balance cid w
  = (Return (sum_points (entries_of cid (db w))), w).
Proof.
  unfold get_customer_point_balance, bind, query, ret, select_sum_points.
  rewrite sql_sum_sum_points. reflexivity.
Qed.

Lemma add_points_transaction_run now cid points ty nt (w : World) :
  add_points_transaction now cid points ty nt w
  = (Return tt,
     mkWorld (mkDB (Customers (db w))
                   (PointsLedger (db w)
                    ++ [mkLedgerEntry cid points ty nt now])
                   (Rewards (db w)))
             (screen w)).
Proof. reflexivity. Qed.


(** ** C1: the balance is the ledger sum *)



(** ** Closed forms of the helper functions *)

Lemma get_customer_spending_this_year_run (year cid : Z) (w : World) :
  get_customer_spending_this_year year cid w
  = (Return (spending_of year cid (db w)), w).
Proof.
  unfold get_customer_spending_this_year, bind, query, ret, select_sum_earned.
  rewrite sql_sum_sum_points. reflexivity.
Qed.

Lemma update_customer_tier_run (year cid : Z) (w : World) :
  update_customer_tier year cid w
  = match select_tier cid (db w) with
    | None =>
        (Raise (TypeError "'NoneType' object is not subscriptable"), w)
    | Some current_tier =>
        let new_tier := tier_for_spending (spending_of year cid (db w)) in
        if String.eqb new_tier current_tier
        then (Return tt, w)
        else (Return tt,
              mkWorld (update_tier new_tier cid (db w))
                      (screen w ++ [tier_message new_tier]))
    end.
Proof.
  unfold update_customer_tier, bind.
  rewrite get_customer_spending_this_year_run.
  unfold query. cbn [fst snd].
  destruct (select_tier cid (db w)) as [cur|]; [|reflexivity].
  cbv zeta.
  destruct (String.eqb (tier_for_spending (spending_of year cid (db w))) cur);
    reflexivity.
Qed.

Lemma find_update_tier (t : string) (cid : Z) (cs : list Customer) :
  option_map tier
    (find (fun c => customer_id c =? cid)
       (map (fun c => if customer_id c =? cid
                      then mkCustomer (customer_id c) (email c) (first_name c)
                                      (last_name c) t
                      else c) cs))
  = option_map (fun _ => t) (find (fun c => customer_id c =? cid) cs).
Proof.
  induction cs as [|c cs IH]; [reflexivity|].
  cbn [map find].
  destruct (customer_id c =? cid) eqn:E.
  - cbn [customer_id]. rewrite E. reflexivity.
  - rewrite E. exact IH.
Qed.

Lemma select_tier_update_tier (t : string) (cid : Z) (d : DB) :
  select_tier cid (update_tier t cid d)
  = option_map (fun _ => t) (select_tier cid d).
Proof.
  unfold select_tier, update_tier. cbn [Customers].
  rewrite find_update_tier.
  destruct (find (fun c => customer_id c =? cid) (Customers d)); reflexivity.
Qed.

Lemma tier_for_spending_gold (s : Q) :
  tier_for_spending s = "Gold" <-> (500 <= s)%Q.
Proof.
  unfold tier_for_spending, GOLD_TIER_THRESHOLD.
  destruct (Qle_bool (inject_Z 500) s) eqn:E.
  - rewrite Qle_bool_iff in E. split; [intros _; exact E | reflexivity].
  - split; [discriminate|].
    intros H. apply Qle_bool_iff in H.
    change (inject_Z 500) with 500%Q in E. congruence.
Qed.

Lemma tier_for_spending_standard (s : Q) :
  tier_for_spending s = "Standard" <-> (s < 500)%Q.
Proof.
  unfold tier_for_spending, GOLD_TIER_THRESHOLD.
  destruct (Qle_bool (inject_Z 500) s) eqn:E.
  - rewrite Qle_bool_iff in E. split; [discriminate|].
    intros H. exfalso. apply (Qlt_not_le _ _ H). exact E.
  - split; [|reflexivity]. intros _.
    apply Qnot_le_lt. intros H. apply Qle_bool_iff in H.
    change (inject_Z 500) with 500%Q in E. congruence.
Qed.

(** The tier stored for a customer once [update_customer_tier] has run. *)
Lemma update_customer_tier_stores (year cid : Z) (w : World) (cur : string) :
  select_tier cid (db w) = Some cur ->
  select_tier cid (db (snd (update_customer_tier year cid w)))
  = Some (tier_for_spending (spending_of year cid (db w))).
Proof.
  intros Hcur. rewrite update_customer_tier_run, Hcur. cbv zeta.
  destruct (String.eqb _ cur) eqn:E.
  - apply String.eqb_eq in E. cbn [snd]. rewrite Hcur, E. reflexivity.
  - cbn [snd db]. rewrite select_tier_update_tier, Hcur. reflexivity.
Qed.

(** ** C3: the Gold threshold *)

(** C3.  The tier computed from a yearly spending is Gold exactly when
    the spending is at least 500 and Standard exactly when it is below;
    500.00 gives Gold and 499.99 gives Standard; and for every customer in
    the table the tier stored after [update_customer_tier] is that tier of
    the customer's spending of the year. *)
Theorem gold_threshold :
  forall (year cid : Z) (w : World) (cur : string),
    select_tier cid (db w) = Some cur ->
    let spending := spending_of year cid (db w) in
    let stored :=
      select_tier cid (db (snd (update_customer_tier year cid w))) in
    (forall s : Q, tier_for_spending s = "Gold" <-> (500 <= s)%Q)
    /\ (forall s : Q, tier_for_spending s = "Standard" <-> (s < 500)%Q)
    /\ tier_for_spending 500%Q = "Gold"
    /\ tier_for_spending (49999 # 100)%Q = "Standard"
    /\ (stored = Some "Gold" <-> (500 <= spending)%Q)
    /\ (stored = Some "Standard" <-> (spending < 500)%Q).
Proof.
  intros year cid w cur Hcur spending stored.
  assert (Hst : stored = Some (tier_for_spending spending))
    by (apply (update_customer_tier_stores year cid w cur Hcur)).
  repeat split; try reflexivity;
    try (apply tier_for_spending_gold); try (apply tier_for_spending_standard).
  - rewrite Hst. intros H. injection H as H.
    apply tier_for_spending_gold; exact H.
  - rewrite Hst. intros H. f_equal. apply tier_for_spending_gold; exact H.
  - rewrite Hst. intros H. injection H as H.
    apply tier_for_spending_standard; exact H.
  - rewrite Hst. intros H. f_equal. apply tier_for_spending_standard; exact H.
Qed.

Lemma gold_threshold_witness :
  select_tier 1 (db w_due) = Some "Standard"
  /\ (select_tier 1 (db (snd (update_customer_tier 2024 1 w_due))) = Some "Gold"
      <-> (500 <= spending_of 2024 1 (db w_due))%Q).
Proof.
  split.
  - reflexivity.
  - exact (proj1 (proj2 (proj2 (proj2 (proj2
             (gold_threshold 2024 1 w_due "Standard" eq_refl)))))).
Defined.

(** ** C6: what the tier evaluator reports *)

(** C6, as stated, fails: [update_customer_tier] has no [return]
    statement.  The run that moves Alice from Standard to Gold and the run
    that leaves her at Gold hand back the same value, so the value handed
    back is not the triple (previous tier, new tier, changed). *)
Lemma tier_evaluator_returns_no_triple :
  fst (update_customer_tier 2024 1 w_due) = Return tt
  /\ fst (update_customer_tier 2024 1 w_gold) = Return tt
  /\ select_tier 1 (db w_due) = Some "Standard"
  /\ tier_for_spending (spending_of 2024 1 (db w_due)) = "Gold"
  /\ select_tier 1 (db w_gold) = Some "Gold"
  /\ tier_for_spending (spending_of 2024 1 (db w_gold)) = "Gold"
  /\ ~ (exists triple_of : unit -> string * string * bool,
          (forall v, fst (update_customer_tier 2024 1 w_due) = Return v ->
                     triple_of v = ("Standard", "Gold", true))
          /\ (forall v, fst (update_customer_tier 2024 1 w_gold) = Return v ->
                        triple_of v = ("Gold", "Gold", false))).
Proof.
  repeat split; try (vm_compute; reflexivity).
  intros [triple_of [Hdue Hgold]].
  specialize (Hdue tt ltac:(vm_compute; reflexivity)).
  specialize (Hgold tt ltac:(vm_compute; reflexivity)).
  rewrite Hdue in Hgold. discriminate.
Qed.

(** C6, amended.  For every customer in the table,
    [update_customer_tier] returns nothing; with [prev] the stored tier
    and [new] the tier of the year's spending, when [new] differs from
    [prev] the new tier is written to the customer's row and the success
    message is shown, and when they are equal neither the database nor the
    screen changes; the row is written exactly when the two differ. *)
Theorem tier_written_exactly_when_changed :
  forall (year cid : Z) (w : World) (prev : string),
    select_tier cid (db w) = Some prev ->
    let new := tier_for_spending (spending_of year cid (db w)) in
    let r := update_customer_tier year cid w in
    fst r = Return tt
    /\ (new <> prev ->
        snd r = mkWorld (update_tier new cid (db w))
                        (screen w ++ [tier_message new]))
    /\ (new = prev -> snd r = w)
    /\ select_tier cid (db (snd r)) = Some new
    /\ (db (snd r) = db w <-> new = prev)
    /\ (screen (snd r) = screen w <-> new = prev).
Proof.
  intros year cid w prev Hprev new r.
  assert (Hr : r = if String.eqb new prev
                   then (Return tt, w)
                   else (Return tt,
                         mkWorld (update_tier new cid (db w))
                                 (screen w ++ [tier_message new]))).
  { subst r. rewrite update_customer_tier_run, Hprev. reflexivity. }
  assert (Hstored : select_tier cid (db (snd r)) = Some new)
    by (apply (update_customer_tier_stores year cid w prev Hprev)).
  clearbody r new. subst r.
  destruct (String.eqb_spec new prev) as [Heq|Hne]; cbn [fst snd] in *.
  - split; [reflexivity|]. split; [intros Hne; contradiction|].
    split; [reflexivity|]. split; [exact Hstored|].
    split; split; auto.
  - cbn [db screen] in *.
    split; [reflexivity|]. split; [reflexivity|].
    split; [intros Heq; contradiction|]. split; [exact Hstored|].
    split; split; try (intros Heq; contradiction).
    + intros Hdb. rewrite Hdb, Hprev in Hstored. congruence.
    + intros Hscr. exfalso.
      apply (f_equal (@List.length Message)) in Hscr.
      rewrite length_app in Hscr. cbn in Hscr. lia.
Qed.

Lemma tier_written_exactly_when_changed_witness :
  select_tier 1 (db w_due) = Some "Standard"
  /\ fst (update_customer_tier 2024 1 w_due) = Return tt
  /\ select_tier 1 (db (snd (update_customer_tier 2024 1 w_due)))
     = Some (tier_for_spending (spending_of 2024 1 (db w_due))).
Proof.
  pose proof (tier_written_exactly_when_changed 2024 1 w_due "Standard"
                eq_refl) as H.
  split; [reflexivity|].
  split; [exact (proj1 H) | exact (proj1 (proj2 (proj2 (proj2 H))))].
Defined.

(** ** Text order of timestamps is chronological order *)

Lemma in_upto (n z : Z) : 0 <= z < n -> In z (upto n).
Proof.
  intros H. unfold upto. apply in_map_iff.
  exists (Z.to_nat z). split; [lia|]. apply in_seq. lia.
Qed.

Lemma compare_app_same_length (a b s t : string) :
  String.length a = String.length b ->
  String.compare (a ++ s) (b ++ t)
  = lex (String.compare a b) (String.compare s t).
Proof.
  revert b. induction a as [|c a IH]; intros [|d b] Hlen;
    try discriminate; [reflexivity|].
  cbn [append String.compare]. cbn in Hlen.
  destruct (Ascii.compare c d); [|reflexivity|reflexivity].
  apply IH. lia.
Qed.

Lemma two_digits_compare_table :
  forallb (fun m =>
    forallb (fun n =>
      comparison_eqb (String.compare (two_digits m) (two_digits n)) (m ?= n))
      (upto 100)) (upto 100) = true.
Proof. vm_compute. reflexivity. Qed.

Lemma comparison_eqb_eq (c1 c2 : comparison) :
  comparison_eqb c1 c2 = true -> c1 = c2.
Proof. destruct c1, c2; simpl; congruence. Qed.

Lemma two_digits_compare (m n : Z) :
  0 <= m < 100 -> 0 <= n < 100 ->
  String.compare (two_digits m) (two_digits n) = (m ?= n).
Proof.
  intros Hm Hn. pose proof two_digits_compare_table as T.
  rewrite forallb_forall in T.
  specialize (T m (in_upto 100 m ltac:(lia))).
  rewrite forallb_forall in T.
  apply comparison_eqb_eq, (T n), in_upto. lia.
Qed.

Lemma compare_hundreds (a b : Z) :
  lex (a / 100 ?= b / 100) (a mod 100 ?= b mod 100) = (a ?= b).
Proof.
  pose proof (Z.div_mod a 100 ltac:(lia)).
  pose proof (Z.div_mod b 100 ltac:(lia)).
  pose proof (Z.mod_pos_bound a 100 ltac:(lia)).
  pose proof (Z.mod_pos_bound b 100 ltac:(lia)).
  symmetry.
  destruct (Z.compare_spec (a / 100) (b / 100)); cbn [lex].
  - destruct (Z.compare_spec (a mod 100) (b mod 100));
      [ apply Z.compare_eq_iff | apply Z.compare_lt_iff
      | apply Z.compare_gt_iff ]; lia.
  - apply Z.compare_lt_iff. lia.
  - apply Z.compare_gt_iff. lia.
Qed.

Lemma four_digits_compare (a b : Z) :
  0 <= a < 10000 -> 0 <= b < 10000 ->
  String.compare (four_digits a) (four_digits b) = (a ?= b).
Proof.
  intros Ha Hb. unfold four_digits.
  rewrite compare_app_same_length by reflexivity.
  rewrite !two_digits_compare, compare_hundreds.
  - destruct (a ?= b); reflexivity.
  - split; [apply Z.mod_pos_bound | apply Z.mod_pos_bound]; lia.
  - split; [apply Z.mod_pos_bound | apply Z.mod_pos_bound]; lia.
  - split; [apply Z.div_pos | apply Z.div_lt_upper_bound]; lia.
  - split; [apply Z.div_pos | apply Z.div_lt_upper_bound]; lia.
Qed.

Lemma compare_same_prefix (p s t : string) :
  String.compare (p ++ s) (p ++ t) = String.compare s t.
Proof.
  induction p as [|c p IH]; [reflexivity|].
  cbn [append String.compare]. unfold Ascii.compare.
  rewrite N.compare_refl. exact IH.
Qed.

Lemma two_digits_then (m n : Z) (s t : string) :
  0 <= m < 100 -> 0 <= n < 100 ->
  String.compare (two_digits m ++ s) (two_digits n ++ t)
  = lex (m ?= n) (String.compare s t).
Proof.
  intros Hm Hn. rewrite compare_app_same_length by reflexivity.
  rewrite two_digits_compare by assumption. reflexivity.
Qed.

Lemma sqlite_datetime_compare (a b : datetime) :
  printable_datetime a -> printable_datetime b ->
  String.compare (sqlite_datetime a) (sqlite_datetime b)
  = datetime_compare a b.
Proof.
  intros (Hy & Hmo & Hd & Hh & Hmi & Hs) (Hy' & Hmo' & Hd' & Hh' & Hmi' & Hs').
  unfold sqlite_datetime, datetime_compare.
  rewrite compare_app_same_length by reflexivity.
  rewrite four_digits_compare by assumption.
  rewrite compare_same_prefix, two_digits_then by assumption.
  rewrite compare_same_prefix, two_digits_then by assumption.
  rewrite compare_same_prefix, two_digits_then by assumption.
  rewrite compare_same_prefix, two_digits_then by assumption.
  rewrite compare_same_prefix, two_digits_compare by assumption.
  reflexivity.
Qed.

Lemma str_of_int_four_digits_table :
  forallb (fun y => (y <? 1000) || String.eqb (str_of_int y) (four_digits y))
          (upto 10000) = true.
Proof. vm_compute. reflexivity. Qed.

(** A year of four digits prints the same way in the f-string of the
    source and in the store's timestamp. *)
Lemma str_of_int_four_digits (y : Z) :
  1000 <= y <= 9999 -> str_of_int y = four_digits y.
Proof.
  intros Hy. pose proof str_of_int_four_digits_table as T.
  rewrite forallb_forall in T.
  specialize (T y (in_upto 10000 y ltac:(lia))).
  apply orb_true_iff in T. destruct T as [T|T].
  - apply Z.ltb_lt in T. lia.
  - apply String.eqb_eq. exact T.
Qed.

Lemma year_bounds_are_datetimes (y : Z) :
  1000 <= y <= 9999 ->
  str_of_int y ++ "-01-01 00:00:00" = sqlite_datetime (start_of_year y)
  /\ str_of_int y ++ "-12-31 23:59:59" = sqlite_datetime (end_of_year y).
Proof.
  intros Hy. rewrite (str_of_int_four_digits y Hy). split; reflexivity.
Qed.

Lemma valid_datetime_printable (t : datetime) :
  valid_datetime t -> printable_datetime t.
Proof. unfold valid_datetime, printable_datetime. lia. Qed.

Lemma leb_compare (s t : string) :
  String.leb s t = match String.compare s t with Gt => false | _ => true end.
Proof. reflexivity. Qed.

(** The year test of the source, on a timestamp the store wrote: the
    text lies between the two bounds exactly when the date is in the year. *)
Lemma text_between_year (t : datetime) (y : Z) :
  valid_datetime t -> 1000 <= y <= 9999 ->
  text_between (sqlite_datetime t)
    (str_of_int y ++ "-01-01 00:00:00") (str_of_int y ++ "-12-31 23:59:59")
  = (dt_year t =? y).
Proof.
  intros Ht Hy.
  destruct (year_bounds_are_datetimes y Hy) as [-> ->].
  pose proof (valid_datetime_printable t Ht) as Hp.
  assert (Hs : printable_datetime (start_of_year y))
    by (unfold printable_datetime; cbn; lia).
  assert (He : printable_datetime (end_of_year y))
    by (unfold printable_datetime; cbn; lia).
  unfold text_between.
  rewrite !leb_compare, !sqlite_datetime_compare by assumption.
  destruct Ht as (Hty & Hmo & Hd & Hh & Hmi & Hse).
  unfold datetime_compare, start_of_year, end_of_year.
  cbn [dt_year dt_month dt_day dt_hour dt_minute dt_second].
  destruct (Z.eqb_spec (dt_year t) y) as [E|E].
  - rewrite E, Z.compare_refl. cbn [lex].
    assert (L : forall a b c, a <= b -> lex (a ?= b) c <> Gt \/ (a = b)).
    { intros a b c Hab. destruct (Z.compare_spec a b); cbn; try lia;
        left; discriminate. }
    assert (Lo : lex (1 ?= dt_month t)
                  (lex (1 ?= dt_day t)
                    (lex (0 ?= dt_hour t)
                      (lex (0 ?= dt_minute t) (0 ?= dt_second t)))) <> Gt).
    { repeat match goal with
             | |- lex (?a ?= ?b) _ <> Gt =>
                 destruct (Z.compare_spec a b); cbn [lex];
                 [ | discriminate | lia ]
             end.
      destruct (Z.compare_spec 0 (dt_second t)); try discriminate; lia. }
    assert (Hi : lex (dt_month t ?= 12)
                  (lex (dt_day t ?= 31)
                    (lex (dt_hour t ?= 23)
                      (lex (dt_minute t ?= 59) (dt_second t ?= 59)))) <> Gt).
    { repeat match goal with
             | |- lex (?a ?= ?b) _ <> Gt =>
                 destruct (Z.compare_spec a b); cbn [lex];
                 [ | discriminate | lia ]
             end.
      destruct (Z.compare_spec (dt_second t) 59); try discriminate; lia. }
    clear L.
    destruct (lex (1 ?= dt_month t) _); try congruence;
      destruct (lex (dt_month t ?= 12) _); try congruence; reflexivity.
  - destruct (Z.compare_spec y (dt_year t)) as [H|H|H]; [congruence| |].
    + rewrite (proj2 (Z.compare_gt_iff (dt_year t) y) H). reflexivity.
    + cbn [lex]. reflexivity.
Qed.

Lemma quotient_by_ratio (p : Z) :
  (inject_Z p / inject_Z POINTS_PER_DOLLAR == p # 10)%Q.
Proof.
  unfold POINTS_PER_DOLLAR, Qeq, Qdiv, Qmult, Qinv, inject_Z. cbn. lia.
Qed.


(** ** C4: the yearly spending *)



(** ** C7: the end of the year *)

Lemma earn_entries_after_insert now cid points ty nt year c (d : DB) :
  earn_entries_in_year year c (insert_ledger now cid points ty nt d)
  = (earn_entries_in_year year c d
     ++ earn_entries_in_year year c
          (mkDB [] [mkLedgerEntry cid points ty nt now] []))%list.
Proof.
  unfold earn_entries_in_year, insert_ledger. cbn [PointsLedger].
  apply filter_app.
Qed.

(** C7.  For every database, customer and number of points: an [earn]
    entry the store timestamps 2024-12-31 23:59:59 joins the entries
    counted for 2024 and raises the 2024 spending by its points over 10;
    an [earn] entry timestamped 2025-01-01 00:00:00 leaves the entries
    counted for 2024, and the 2024 spending, as they were. *)
Theorem year_end_is_inclusive :
  forall (w : World) (cid points : Z) (nt : string),
    let last := "2024-12-31 23:59:59" in
    let next := "2025-01-01 00:00:00" in
    let w_last := snd (add_points_transaction last cid points "earn" nt w) in
    let w_next := snd (add_points_transaction next cid points "earn" nt w) in
    earn_entries_in_year 2024 cid (db w_last)
    = (earn_entries_in_year 2024 cid (db w)
       ++ [mkLedgerEntry cid points "earn" nt last])%list
    /\ (exists q q' : Q,
           fst (get_customer_spending_this_year 2024 cid w) = Return q
           /\ fst (get_customer_spending_this_year 2024 cid w_last) = Return q'
           /\ (q' == q + (points # 10))%Q)
    /\ earn_entries_in_year 2024 cid (db w_next)
       = earn_entries_in_year 2024 cid (db w)
    /\ fst (get_customer_spending_this_year 2024 cid w_next)
       = fst (get_customer_spending_this_year 2024 cid w).
Proof.
  intros w cid points nt last next w_last w_next.
  assert (Hlast : earn_entries_in_year 2024 cid (db w_last)
                  = (earn_entries_in_year 2024 cid (db w)
                     ++ [mkLedgerEntry cid points "earn" nt last])%list).
  { subst w_last. cbn [snd add_points_transaction execute db].
    rewrite earn_entries_after_insert. f_equal.
    unfold earn_entries_in_year. cbn [PointsLedger filter ledger_customer_id
      transaction_type timestamp].
    rewrite Z.eqb_refl. reflexivity. }
  assert (Hnext : earn_entries_in_year 2024 cid (db w_next)
                  = earn_entries_in_year 2024 cid (db w)).
  { subst w_next. cbn [snd add_points_transaction execute db].
    rewrite earn_entries_after_insert.
    unfold earn_entries_in_year at 2.
    cbn [PointsLedger filter ledger_customer_id transaction_type timestamp].
    rewrite Z.eqb_refl. cbn. apply app_nil_r. }
  split; [exact Hlast|]. split; [|split; [exact Hnext|]].
  - exists (spending_of 2024 cid (db w)), (spending_of 2024 cid (db w_last)).
    rewrite !get_customer_spending_this_year_run. cbn [fst].
    split; [reflexivity|]. split; [reflexivity|].
    unfold spending_of. rewrite Hlast, sum_points_app, !quotient_by_ratio.
    cbn [sum_points fold_right points_change].
    unfold Qeq, Qplus. cbn. lia.
  - rewrite !get_customer_spending_this_year_run. cbn [fst].
    unfold spending_of. rewrite Hnext. reflexivity.
Qed.

(** A timestamp text with the letter T between date and time is outside
    the bounds of the source, which separate them by a space. *)
Example t_separator_is_out_of_range :
  text_between "2024-12-31T23:59:59"
    (str_of_int 2024 ++ "-01-01 00:00:00")
    (str_of_int 2024 ++ "-12-31 23:59:59")
  = false.
Proof. vm_compute. reflexivity. Qed.

(** ** C8: the two reads are pure *)


(** ** Closed forms of the pages *)

Lemma update_customer_tier_frame (year cid : Z) (w : World) :
  PointsLedger (db (snd (update_customer_tier year cid w)))
  = PointsLedger (db w)
  /\ Rewards (db (snd (update_customer_tier year cid w))) = Rewards (db w).
Proof.
  rewrite update_customer_tier_run.
  destruct (select_tier cid (db w)) as [cur|]; [|split; reflexivity].
  cbv zeta. destruct (String.eqb _ cur); split; reflexivity.
Qed.

Lemma email_found_has_tier (e : string) (d : DB) (c : Customer) :
  select_customer_by_email e d = Some c ->
  exists t, select_tier (customer_id c) d = Some t.
Proof.
  unfold select_customer_by_email, select_tier. intros H.
  apply find_some in H. destruct H as [Hin _].
  destruct (find (fun c0 => customer_id c0 =? customer_id c) (Customers d))
    as [c'|] eqn:F.
  - exists (tier c'). reflexivity.
  - exfalso. apply (find_none _ _ F c) in Hin.
    rewrite Z.eqb_refl in Hin. discriminate.
Qed.

Lemma update_customer_tier_returns (year cid : Z) (w : World) (t : string) :
  select_tier cid (db w) = Some t ->
  fst (update_customer_tier year cid w) = Return tt.
Proof.
  intros H. rewrite update_customer_tier_run, H. cbv zeta.
  destruct (String.eqb _ t); reflexivity.
Qed.

Lemma page_redeem_reward_run clk email display (w : World) :
  page_redeem_reward clk email display true w
  = if str_is_falsy email then (Return tt, w) else
    match select_customer_by_email email (db w) with
    | None => (Return tt, say w (error "Customer email not found."))
    | Some c =>
        match select_rewards (db w) with
        | [] => (Return tt, say w (warning "No rewards currently available."))
        | _ :: _ =>
            match dict_get display (reward_options_of (select_rewards (db w)))
            with
            | None => (Raise (KeyError display), w)
            | Some rid =>
                match find (fun r => reward_id r =? rid) (select_rewards (db w))
                with
                | None =>
                    (Return tt, say w (error "Selected reward not found."))
                | Some r =>
                    if points_cost r
                       <=? sum_points (entries_of (customer_id c) (db w))
                    then (Return tt,
                          after_redeem clk display (customer_id c)
                            (points_cost r) w)
                    else (Return tt, say w insufficient_points)
                end
            end
        end
    end.
Proof.
  unfold page_redeem_reward.
  destruct (str_is_falsy email); [reflexivity|]. cbn [negb].
  unfold bind at 1. unfold get_customer_by_email, query at 1. cbv beta iota.
  destruct (select_customer_by_email email (db w)) as [c|]; [|reflexivity].
  unfold bind at 1. rewrite get_customer_point_balance_run.
  unfold bind at 1. unfold get_available_rewards, query. cbv beta iota.
  destruct (select_rewards (db w)) as [|r0 rs] eqn:R; [reflexivity|].
  destruct (dict_get display (reward_options_of (r0 :: rs))) as [rid|];
    [|reflexivity].
  destruct (find (fun r => reward_id r =? rid) (r0 :: rs)) as [r|];
    [|reflexivity].
  cbn [option_map].
  destruct (points_cost r <=? sum_points (entries_of (customer_id c) (db w)));
    reflexivity.
Qed.

Lemma page_redeem_reward_idle clk email display (w : World) :
  page_redeem_reward clk email display false w
  = if str_is_falsy email then (Return tt, w) else
    match select_customer_by_email email (db w) with
    | None => (Return tt, say w (error "Customer email not found."))
    | Some c =>
        match select_rewards (db w) with
        | [] => (Return tt, say w (warning "No rewards currently available."))
        | _ :: _ => (Return tt, w)
        end
    end.
Proof.
  unfold page_redeem_reward.
  destruct (str_is_falsy email); [reflexivity|]. cbn [negb].
  unfold bind at 1. unfold get_customer_by_email, query at 1. cbv beta iota.
  destruct (select_customer_by_email email (db w)) as [c|]; [|reflexivity].
  unfold bind at 1. rewrite get_customer_point_balance_run.
  unfold bind at 1. unfold get_available_rewards, query. cbv beta iota.
  destruct (select_rewards (db w)) as [|r0 rs]; reflexivity.
Qed.

Lemma page_customer_service_run clk email points reason (w : World) :
  page_customer_service clk email points reason true w
  = if str_is_falsy email || (points =? 0) || str_is_falsy reason
    then (Return tt,
          say w (warning "Please fill in all fields (Points cannot be zero)."))
    else
      match select_customer_by_email email (db w) with
      | None => (Return tt, say w (error "Customer email not found."))
      | Some c =>
          update_customer_tier (now_year clk) (customer_id c)
            (after_adjust clk email reason (customer_id c) points w)
      end.
Proof.
  unfold page_customer_service.
  destruct (str_is_falsy email || (points =? 0) || str_is_falsy reason);
    [reflexivity|].
  unfold bind at 1. unfold get_customer_by_email, query at 1. cbv beta iota.
  destruct (select_customer_by_email email (db w)) as [c|] eqn:Hc;
    [|reflexivity].
  destruct (email_found_has_tier _ _ _ Hc) as [t Ht].
  unfold try_except, bind.
  rewrite add_points_transaction_run. cbv beta iota.
  unfold st_success, st_message. cbv beta iota. cbn [db screen].
  fold (insert_ledger (CURRENT_TIMESTAMP clk) (customer_id c) points
          "manual_adjust" reason (db w)).
  fold (after_adjust clk email reason (customer_id c) points w).
  pose proof (update_customer_tier_returns (now_year clk) (customer_id c)
                (after_adjust clk email reason (customer_id c) points w) t Ht)
    as Hret.
  destruct (update_customer_tier (now_year clk) (customer_id c)
              (after_adjust clk email reason (customer_id c) points w))
    as [[[]|e] w2]; cbn [fst] in Hret; [reflexivity|discriminate].
Qed.

Lemma page_add_points_run clk email amount order (w : World) :
  page_add_points clk email amount order true w
  = if str_is_falsy email || float_is_falsy amount || str_is_falsy order
    then (Return tt, say w (warning "Please fill in all fields."))
    else
      match select_customer_by_email email (db w) with
      | None => (Return tt, say w (error "Customer email not found."))
      | Some c =>
          match int_of_float
                  (amount * float_of_small_int POINTS_PER_DOLLAR)%float
          with
          | Raise e => (Raise e, w)
          | Return points =>
              update_customer_tier (now_year clk) (customer_id c)
                (after_earn clk email order (customer_id c) points w)
          end
      end.
Proof.
  unfold page_add_points.
  destruct (str_is_falsy email || float_is_falsy amount || str_is_falsy order);
    [reflexivity|].
  unfold bind at 1. unfold get_customer_by_email, query at 1. cbv beta iota.
  destruct (select_customer_by_email email (db w)) as [c|] eqn:Hc;
    [|reflexivity].
  destruct (int_of_float _) as [points|e]; [|reflexivity].
  destruct (email_found_has_tier _ _ _ Hc) as [t Ht].
  unfold try_except, bind.
  rewrite add_points_transaction_run. cbv beta iota.
  unfold st_success, st_message. cbv beta iota. cbn [db screen].
  fold (insert_ledger (CURRENT_TIMESTAMP clk) (customer_id c) points
          "earn" ("Order #" ++ order) (db w)).
  fold (after_earn clk email order (customer_id c) points w).
  pose proof (update_customer_tier_returns (now_year clk) (customer_id c)
                (after_earn clk email order (customer_id c) points w) t Ht)
    as Hret.
  destruct (update_customer_tier (now_year clk) (customer_id c)
              (after_earn clk email order (customer_id c) points w))
    as [[[]|e] w2]; cbn [fst] in Hret; [reflexivity|discriminate].
Qed.

Lemma balance_after_insert now cid points ty nt (d : DB) :
  sum_points (entries_of cid (insert_ledger now cid points ty nt d))
  = sum_points (entries_of cid d) + points.
Proof.
  unfold entries_of, insert_ledger. cbn [PointsLedger].
  rewrite filter_app, sum_points_app. cbn [filter ledger_customer_id].
  rewrite Z.eqb_refl. cbn. lia.
Qed.

(** ** The select box of the Redeem page *)

Lemma dict_get_set_same {V} (k : string) (v : V) (d : dict V) :
  dict_get k (dict_set k v d) = Some v.
Proof.
  induction d as [|[k' v'] d IH]; cbn.
  - rewrite String.eqb_refl. reflexivity.
  - destruct (String.eqb k' k) eqn:E; cbn; rewrite E; [reflexivity|exact IH].
Qed.

Lemma dict_get_set_other {V} (k k0 : string) (v : V) (d : dict V) :
  k0 <> k -> dict_get k0 (dict_set k v d) = dict_get k0 d.
Proof.
  intros Hne. induction d as [|[k' v'] d IH]; cbn.
  - destruct (String.eqb_spec k k0); [congruence|reflexivity].
  - destruct (String.eqb_spec k' k) as [->|Hk]; cbn.
    + destruct (String.eqb_spec k k0); [congruence|reflexivity].
    + destruct (String.eqb_spec k' k0); [reflexivity|exact IH].
Qed.

(** A key of the dictionary is a label that can be looked up. *)
Lemma dict_get_of_key {V} (k : string) (d : dict V) :
  In k (dict_keys d) -> exists v, dict_get k d = Some v.
Proof.
  induction d as [|[k' v'] d IH]; cbn; [tauto|].
  intros [->|Hin].
  - rewrite String.eqb_refl. eauto.
  - destruct (String.eqb k' k); eauto.
Qed.

Lemma reward_options_get (rs : list Reward) (d : dict Z) (k : string) (v : Z) :
  dict_get k
    (fold_left (fun d r => dict_set (reward_label r) (reward_id r) d) rs d)
  = Some v ->
  (exists r, In r rs /\ reward_label r = k /\ reward_id r = v)
  \/ dict_get k d = Some v.
Proof.
  revert d. induction rs as [|r rs IH]; intros d H; cbn in H; [right; exact H|].
  destruct (IH _ H) as [(r' & Hin & Hl & Hid)|Hd].
  - left. exists r'. split; [right; exact Hin|]. split; assumption.
  - destruct (String.eqb_spec k (reward_label r)) as [->|Hne].
    + rewrite dict_get_set_same in Hd. injection Hd as <-.
      left. exists r. split; [left; reflexivity|]. split; reflexivity.
    + rewrite dict_get_set_other in Hd by exact Hne. right. exact Hd.
Qed.

Lemma reward_options_keep (rs : list Reward) (d : dict Z) (k : string) :
  (exists v, dict_get k d = Some v) ->
  exists v,
    dict_get k
      (fold_left (fun d r => dict_set (reward_label r) (reward_id r) d) rs d)
    = Some v.
Proof.
  revert d. induction rs as [|r rs IH]; intros d [v Hd]; cbn [fold_left];
    [eauto|].
  apply IH.
  destruct (String.eqb_spec k (reward_label r)) as [->|Hne].
  - rewrite dict_get_set_same. eauto.
  - rewrite dict_get_set_other by exact Hne. eauto.
Qed.

Lemma reward_options_has (rs : list Reward) (d : dict Z) (r : Reward) :
  In r rs ->
  exists v,
    dict_get (reward_label r)
      (fold_left (fun d r => dict_set (reward_label r) (reward_id r) d) rs d)
    = Some v.
Proof.
  revert d. induction rs as [|r0 rs IH]; intros d Hin; [destruct Hin|].
  cbn [fold_left]. destruct Hin as [->|Hin]; [|apply IH; exact Hin].
  apply reward_options_keep. rewrite dict_get_set_same. eauto.
Qed.

Lemma find_unique_id (rs : list Reward) (r : Reward) :
  NoDup (map reward_id rs) -> In r rs ->
  find (fun x => reward_id x =? reward_id r) rs = Some r.
Proof.
  induction rs as [|r0 rs IH]; intros Hnd Hin; [destruct Hin|].
  cbn [map] in Hnd. inversion Hnd as [|? ? Hnotin Hnd']; subst.
  cbn [find]. destruct Hin as [->|Hin].
  - rewrite Z.eqb_refl. reflexivity.
  - destruct (Z.eqb_spec (reward_id r0) (reward_id r)) as [E|_].
    + exfalso. apply Hnotin. rewrite E. apply in_map. exact Hin.
    + apply IH; assumption.
Qed.

Lemma list_ascii_of_string_app (s t : string) :
  list_ascii_of_string (s ++ t)
  = (list_ascii_of_string s ++ list_ascii_of_string t)%list.
Proof.
  induction s as [|c s IH]; [reflexivity|]. cbn. rewrite IH. reflexivity.
Qed.

Lemma list_ascii_of_string_inj (s t : string) :
  list_ascii_of_string s = list_ascii_of_string t -> s = t.
Proof.
  intros H. rewrite <- (string_of_list_ascii_of_string s),
                    <- (string_of_list_ascii_of_string t), H.
  reflexivity.
Qed.

(** Two texts that agree up to and after a last occurrence of [c] agree
    on both sides of it. *)
Lemma split_at_last (c : ascii) (xs xs' d d' : list ascii) :
  ~ In c d -> ~ In c d' ->
  (xs ++ c :: d = xs' ++ c :: d')%list -> xs = xs' /\ d = d'.
Proof.
  intros Hd Hd'. revert xs'.
  induction xs as [|x xs IH]; intros [|x' xs'] H; cbn in H.
  - injection H as H. split; [reflexivity|exact H].
  - injection H as Hc H. exfalso. apply Hd. rewrite H.
    apply in_or_app. right. left. reflexivity.
  - injection H as Hc H. exfalso. apply Hd'. rewrite <- H.
    apply in_or_app. right. left. reflexivity.
  - injection H as Hx H. destruct (IH xs' H) as [-> ->].
    subst x'. split; reflexivity.
Qed.

Lemma uint_digits_no_paren (u : Decimal.uint) :
  ~ In "("%char (list_ascii_of_string (NilEmpty.string_of_uint u)).
Proof.
  induction u; cbn; intros H; try (destruct H as [H|H]; [discriminate|]);
    tauto.
Qed.

Lemma str_of_int_no_paren (n : Z) :
  ~ In "("%char (list_ascii_of_string (str_of_int n)).
Proof.
  unfold str_of_int, NilZero.string_of_int.
  assert (U : forall u, ~ In "("%char
                          (list_ascii_of_string (NilZero.string_of_uint u))).
  { intros u. unfold NilZero.string_of_uint.
    destruct u; try apply uint_digits_no_paren.
    cbn. intros [H|[]]. discriminate. }
  destruct (Z.to_int n) as [u|u]; [apply U|].
  cbn. intros [H|H]; [discriminate|]. exact (U u H).
Qed.

Lemma str_of_int_inj (n n' : Z) : str_of_int n = str_of_int n' -> n = n'.
Proof.
  unfold str_of_int. intros H.
  assert (N : forall z, Z.to_int z <> Decimal.Pos Decimal.Nil
                        /\ Z.to_int z <> Decimal.Neg Decimal.Nil).
  { intros [|p|p]; cbn; split; try discriminate;
      intros E; injection E as E; exact (Unsigned.to_uint_nonnil p E). }
  apply (f_equal NilZero.int_of_string) in H.
  rewrite !NilZero.isi in H by apply N.
  injection H as H. apply to_int_inj. exact H.
Qed.

(** Two rewards with the same label in the select box have the same name
    and the same cost. *)
Lemma reward_label_inj (r r' : Reward) :
  reward_label r = reward_label r' ->
  name r = name r' /\ points_cost r = points_cost r'.
Proof.
  unfold reward_label. intros H.
  apply (f_equal list_ascii_of_string) in H.
  rewrite !list_ascii_of_string_app in H.
  rewrite !app_assoc in H. apply app_inv_tail in H.
  change (list_ascii_of_string " (") with ([" "%char] ++ ["("%char])%list in H.
  rewrite !app_assoc in H. rewrite <- !(app_assoc _ ["("%char]) in H.
  cbn [app] in H.
  apply split_at_last in H; try apply str_of_int_no_paren.
  destruct H as [Hn Hc]. apply app_inv_tail in Hn.
  split.
  - apply list_ascii_of_string_inj. exact Hn.
  - apply str_of_int_inj, list_ascii_of_string_inj. exact Hc.
Qed.

(** ** C2: the redemption guard *)

Lemma insert_by_cost_perm (r : Reward) (rs : list Reward) :
  Permutation (insert_by_cost r rs) (r :: rs).
Proof.
  induction rs as [|r' rs IH]; cbn; [reflexivity|].
  destruct (points_cost r' <=? points_cost r); [|reflexivity].
  rewrite IH. apply perm_swap.
Qed.

(** The rewards the page lists are the rows of the catalog, reordered. *)
Lemma select_rewards_perm (d : DB) : Permutation (select_rewards d) (Rewards d).
Proof.
  unfold select_rewards, order_by_cost.
  assert (G : forall rs acc,
             Permutation (fold_left (fun acc r => insert_by_cost r acc) rs acc)
                         (acc ++ rs)).
  { induction rs as [|r rs IH]; intros acc; cbn [fold_left].
    - rewrite app_nil_r. reflexivity.
    - rewrite IH, insert_by_cost_perm. apply Permutation_middle. }
  apply (G (Rewards d) []).
Qed.

(** With unique reward ids, selecting the label of a catalog reward makes
    the page look up a reward of the same name and the same cost. *)
Lemma selected_cost_is_catalog_cost (d : DB) (r : Reward) :
  NoDup (map reward_id (Rewards d)) -> In r (Rewards d) ->
  exists rid r',
    dict_get (reward_label r) (reward_options_of (select_rewards d)) = Some rid
    /\ find (fun x => reward_id x =? rid) (select_rewards d) = Some r'
    /\ name r' = name r /\ points_cost r' = points_cost r.
Proof.
  intros Hnd Hin.
  pose proof (select_rewards_perm d) as P.
  assert (Hnd' : NoDup (map reward_id (select_rewards d))).
  { apply (Permutation_NoDup (l := map reward_id (Rewards d))); [|exact Hnd].
    apply Permutation_map. symmetry. exact P. }
  assert (Hin' : In r (select_rewards d)).
  { apply (Permutation_in (l := Rewards d)); [symmetry; exact P|exact Hin]. }
  destruct (reward_options_has (select_rewards d) [] r Hin') as [rid Hget].
  destruct (reward_options_get _ _ _ _ Hget) as [(r' & Hr' & Hl & Hid)|Hnil];
    [|discriminate].
  exists rid, r'. split; [exact Hget|]. split.
  - rewrite <- Hid. apply find_unique_id; assumption.
  - apply reward_label_inj. exact Hl.
Qed.

Lemma redemption_guard_lookup (clk : Clock) (email display : string)
    (w : World) (customer : Customer) (rid : Z) (reward : Reward) :
  email <> "" ->
  select_customer_by_email email (db w) = Some customer ->
  dict_get display (reward_options_of (select_rewards (db w))) = Some rid ->
  find (fun r => reward_id r =? rid) (select_rewards (db w)) = Some reward ->
  redemption_outcome clk display w (customer_id customer) (points_cost reward)
    (page_redeem_reward clk email display true w).
Proof.
  intros Hemail Hcust Hrid Hreward.
  set (cid := customer_id customer). set (cost := points_cost reward).
  set (balance := sum_points (entries_of cid (db w))).
  assert (Hr : page_redeem_reward clk email display true w
               = if cost <=? balance
                 then (Return tt, after_redeem clk display cid cost w)
                 else (Return tt, say w insufficient_points)).
  { rewrite page_redeem_reward_run.
    destruct email as [|ch email']; [congruence|]. cbn [str_is_falsy].
    rewrite Hcust.
    destruct (select_rewards (db w)) as [|r0 rs] eqn:R; [discriminate|].
    rewrite Hrid, Hreward. reflexivity. }
  unfold redemption_outcome. rewrite Hr. fold balance. split; intros Hcmp.
  - rewrite (proj2 (Z.leb_le cost balance) Hcmp).
    cbn [fst snd]. split; [reflexivity|]. split; [reflexivity|].
    split; [reflexivity|].
    rewrite get_customer_point_balance_run. unfold after_redeem.
    cbn [fst db]. rewrite balance_after_insert. reflexivity.
  - rewrite (proj2 (Z.leb_gt cost balance) Hcmp).
    cbn [fst snd say db screen]. repeat split.
    rewrite get_customer_point_balance_run. reflexivity.
Qed.

(** C2.  For every customer found by email and every selected label
    for which the page finds a reward, with [cost] the cost of that
    reward: when the balance is at least [cost] the page appends exactly
    one ledger entry, of type [redeem] and with [points_change = - cost],
    and the balance drops by [cost]; when the balance is below [cost] the
    page shows the insufficient-points error, writes nothing to the
    database, and the balance is unchanged.  When the reward ids of the
    catalog are unique, this holds for every reward of the catalog,
    selected by its label, with the cost the catalog gives it. *)
Theorem redemption_guard :
  (forall (clk : Clock) (email display : string) (w : World)
          (customer : Customer) (rid : Z) (reward : Reward),
      email <> "" ->
      select_customer_by_email email (db w) = Some customer ->
      dict_get display (reward_options_of (select_rewards (db w))) = Some rid ->
      find (fun r => reward_id r =? rid) (select_rewards (db w))
      = Some reward ->
      redemption_outcome clk display w (customer_id customer)
        (points_cost reward) (page_redeem_reward clk email display true w))
  /\ (forall (clk : Clock) (email : string) (w : World) (customer : Customer)
             (reward : Reward),
        email <> "" ->
        select_customer_by_email email (db w) = Some customer ->
        NoDup (map reward_id (Rewards (db w))) ->
        In reward (Rewards (db w)) ->
        redemption_outcome clk (reward_label reward) w (customer_id customer)
          (points_cost reward)
          (page_redeem_reward clk email (reward_label reward) true w)).
Proof.
  split.
  - exact redemption_guard_lookup.
  - intros clk email w customer reward Hemail Hcust Hnd Hin.
    destruct (selected_cost_is_catalog_cost (db w) reward Hnd Hin)
      as (rid & r' & Hget & Hfind & _ & Hcost).
    rewrite <- Hcost.
    apply (redemption_guard_lookup clk email (reward_label reward) w customer
             rid r'); assumption.
Qed.

Lemma redemption_guard_witness :
  (let r := page_redeem_reward clk2024 "alice@example.com"
              "Tote Bag (800 Points)" true w_5500 in
   800 <= 5500
   /\ fst r = Return tt
   /\ PointsLedger (db (snd r))
      = (PointsLedger (db w_5500)
         ++ [mkLedgerEntry 1 (- 800) "redeem" "Redeemed: Tote Bag"
               "2024-06-15 12:00:00"])%list
   /\ fst (get_customer_point_balance 1 (snd r)) = Return 4700)
  /\ (let r := page_redeem_reward clk2024 "alice@example.com"
                 "Jacket (10000 Points)" true w_5500 in
      5500 < 10000
      /\ db (snd r) = db w_5500
      /\ screen (snd r) = [insufficient_points]
      /\ fst (get_customer_point_balance 1 (snd r)) = Return 5500).
Proof.
  assert (Hnd : NoDup (map reward_id (Rewards (db w_5500)))).
  { cbn. repeat constructor; cbn; intuition discriminate. }
  split.
  - pose proof (proj2 redemption_guard clk2024 "alice@example.com" w_5500
                  (mkCustomer 1 "alice@example.com" "Alice" "Archer" "Gold")
                  (mkReward 2 "Tote Bag" 800)
                  ltac:(discriminate) eq_refl Hnd
                  ltac:(left; reflexivity)) as [H _].
    specialize (H ltac:(vm_compute; discriminate)).
    destruct H as (H1 & H2 & _ & H4).
    cbv zeta. split; [lia|]. split; [exact H1|]. split; [exact H2|exact H4].
  - pose proof (proj1 redemption_guard clk2024 "alice@example.com"
                  "Jacket (10000 Points)" w_5500
                  (mkCustomer 1 "alice@example.com" "Alice" "Archer" "Gold")
                  3 (mkReward 3 "Jacket" 10000)
                  ltac:(discriminate) eq_refl eq_refl eq_refl) as [_ H].
    specialize (H ltac:(vm_compute; reflexivity)).
    destruct H as (_ & H2 & H3 & H4).
    cbv zeta. split; [lia|]. split; [exact H2|]. split; [exact H3|exact H4].
Defined.

Lemma nonempty_is_truthy (s : string) : s <> "" -> str_is_falsy s = false.
Proof. destruct s; [congruence|reflexivity]. Qed.



Lemma page_redeem_reward_ledger clk email display button (w : World) :
  let r := page_redeem_reward clk email display button w in
  Customers (db (snd r)) = Customers (db w)
  /\ (PointsLedger (db (snd r)) = PointsLedger (db w)
      \/ exists cid cost,
           PointsLedger (db (snd r))
           = (PointsLedger (db w)
              ++ [mkLedgerEntry cid (- cost) "redeem"
                    ("Redeemed: " ++ split_head " (" display)
                    (CURRENT_TIMESTAMP clk)])%list).
Proof.
  cbv zeta. destruct button.
  - rewrite page_redeem_reward_run.
    destruct (str_is_falsy email); [split; [|left]; reflexivity|].
    destruct (select_customer_by_email email (db w)) as [c|];
      [|split; [|left]; reflexivity].
    destruct (select_rewards (db w)) as [|r0 rs];
      [split; [|left]; reflexivity|].
    destruct (dict_get display _) as [rid|]; [|split; [|left]; reflexivity].
    destruct (find _ _) as [r|]; [|split; [|left]; reflexivity].
    destruct (_ <=? _); [|split; [|left]; reflexivity].
    split; [reflexivity|]. right.
    exists (customer_id c), (points_cost r). reflexivity.
  - rewrite page_redeem_reward_idle.
    destruct (str_is_falsy email); [split; [|left]; reflexivity|].
    destruct (select_customer_by_email email (db w)) as [c|];
      [|split; [|left]; reflexivity].
    destruct (select_rewards (db w)) as [|r0 rs]; split; try left; reflexivity.
Qed.

(** ** C5: where inputs are checked *)




(** ** C9: manual adjustments are not guarded *)

(** C9.  For every customer found by email, every nonzero number of
    points and every nonempty reason, the Customer Service page appends
    the [manual_adjust] entry whatever the balance is, and the balance
    afterwards is the balance before plus the points; adjusting Alice, who
    has balance 0, by -100 leaves her with balance -100. *)
Theorem manual_adjust_is_unguarded :
  (forall (clk : Clock) (email reason : string) (points : Z) (w : World)
          (customer : Customer),
      email <> "" -> reason <> "" -> points <> 0 ->
      select_customer_by_email email (db w) = Some customer ->
      let cid := customer_id customer in
      let r := page_customer_service clk email points reason true w in
      fst r = Return tt
      /\ PointsLedger (db (snd r))
         = (PointsLedger (db w)
            ++ [mkLedgerEntry cid points "manual_adjust" reason
                  (CURRENT_TIMESTAMP clk)])%list
      /\ fst (get_customer_point_balance cid (snd r))
         = Return (sum_points (entries_of cid (db w)) + points))
  /\ (let r := page_customer_service clk2024 "alice@example.com" (-100)
                 "goodwill reversal" true w0 in
      fst (get_customer_point_balance 1 w0) = Return 0
      /\ fst (get_customer_point_balance 1 (snd r)) = Return (-100)
      /\ -100 < 0).
Proof.
  split.
  - intros clk email reason points w customer Hemail Hreason Hpoints Hcust
           cid r.
    assert (Hr : r = update_customer_tier (now_year clk) cid
                       (after_adjust clk email reason cid points w)).
    { subst r. rewrite page_customer_service_run.
      rewrite (nonempty_is_truthy email Hemail),
              (nonempty_is_truthy reason Hreason).
      rewrite (proj2 (Z.eqb_neq points 0) Hpoints). cbn [orb].
      rewrite Hcust. reflexivity. }
    clearbody r. subst r.
    destruct (email_found_has_tier _ _ _ Hcust) as [t Ht].
    split; [|split].
    + apply (update_customer_tier_returns _ _ _ t). exact Ht.
    + rewrite (proj1 (update_customer_tier_frame _ _ _)). reflexivity.
    + rewrite get_customer_point_balance_run. cbn [fst]. f_equal.
      unfold entries_of.
      rewrite (proj1 (update_customer_tier_frame _ _ _)).
      apply (balance_after_insert (CURRENT_TIMESTAMP clk) cid points
               "manual_adjust" reason (db w)).
  - cbv zeta. split; [reflexivity|]. split; [vm_compute; reflexivity|lia].
Qed.

Lemma manual_adjust_is_unguarded_witness :
  "alice@example.com" <> "" /\ "goodwill reversal" <> "" /\ -100 <> 0
  /\ select_customer_by_email "alice@example.com" (db w0) = Some alice
  /\ fst (get_customer_point_balance 1
            (snd (page_customer_service clk2024 "alice@example.com" (-100)
                    "goodwill reversal" true w0)))
     = Return (sum_points (entries_of 1 (db w0)) + -100).
Proof.
  split; [discriminate|]. split; [discriminate|]. split; [lia|].
  split; [reflexivity|].
  apply (proj1 manual_adjust_is_unguarded clk2024 "alice@example.com"
           "goodwill reversal" (-100) w0 alice);
    try discriminate; try lia; reflexivity.
Defined.

(** ** C10: redemption leaves the tier alone *)

(** C10.  Whatever the inputs, the Redeem page leaves the customer table,
    and so every stored tier, as it was.  The Add Points page and the
    Customer Service page, once they have recorded their entry for a
    customer found by email, end by running [update_customer_tier], so the
    tier they leave stored is the tier of the spending computed after the
    new entry. *)
Theorem redeem_keeps_tier :
  (forall (clk : Clock) (email display : string) (button : bool) (w : World),
      let r := page_redeem_reward clk email display button w in
      Customers (db (snd r)) = Customers (db w)
      /\ forall cid, select_tier cid (db (snd r)) = select_tier cid (db w))
  /\ (forall (clk : Clock) (email order : string) (amount : float)
             (points : Z) (w : World) (customer : Customer),
        email <> "" -> order <> "" -> float_is_falsy amount = false ->
        int_of_float (amount * float_of_small_int POINTS_PER_DOLLAR)%float
        = Return points ->
        select_customer_by_email email (db w) = Some customer ->
        let cid := customer_id customer in
        let w1 := after_earn clk email order cid points w in
        let r := page_add_points clk email amount order true w in
        r = update_customer_tier (now_year clk) cid w1
        /\ select_tier cid (db (snd r))
           = Some (tier_for_spending (spending_of (now_year clk) cid (db w1))))
  /\ (forall (clk : Clock) (email reason : string) (points : Z) (w : World)
             (customer : Customer),
        email <> "" -> reason <> "" -> points <> 0 ->
        select_customer_by_email email (db w) = Some customer ->
        let cid := customer_id customer in
        let w1 := after_adjust clk email reason cid points w in
        let r := page_customer_service clk email points reason true w in
        r = update_customer_tier (now_year clk) cid w1
        /\ select_tier cid (db (snd r))
           = Some (tier_for_spending (spending_of (now_year clk) cid (db w1)))).
Proof.
  split; [|split].
  - intros clk email display button w r.
    pose proof (page_redeem_reward_ledger clk email display button w)
      as [Hc _]. fold r in Hc.
    split; [exact Hc|]. intros cid. unfold select_tier. rewrite Hc.
    reflexivity.
  - intros clk email order amount points w customer Hemail Horder Hamount
           Hpoints Hcust cid w1 r.
    assert (Hr : r = update_customer_tier (now_year clk) cid w1).
    { subst r. rewrite page_add_points_run.
      rewrite (nonempty_is_truthy email Hemail),
              (nonempty_is_truthy order Horder), Hamount. cbn [orb].
      rewrite Hcust, Hpoints. reflexivity. }
    split; [exact Hr|]. rewrite Hr.
    destruct (email_found_has_tier _ _ _ Hcust) as [t Ht].
    apply (update_customer_tier_stores (now_year clk) cid w1 t). exact Ht.
  - intros clk email reason points w customer Hemail Hreason Hpoints Hcust
           cid w1 r.
    assert (Hr : r = update_customer_tier (now_year clk) cid w1).
    { subst r. rewrite page_customer_service_run.
      rewrite (nonempty_is_truthy email Hemail),
              (nonempty_is_truthy reason Hreason).
      rewrite (proj2 (Z.eqb_neq points 0) Hpoints). cbn [orb].
      rewrite Hcust. reflexivity. }
    split; [exact Hr|]. rewrite Hr.
    destruct (email_found_has_tier _ _ _ Hcust) as [t Ht].
    apply (update_customer_tier_stores (now_year clk) cid w1 t). exact Ht.
Qed.

Lemma redeem_keeps_tier_witness :
  "alice@example.com" <> "" /\ "A-2" <> ""
  /\ float_is_falsy 500%float = false
  /\ int_of_float (500 * float_of_small_int POINTS_PER_DOLLAR)%float
     = Return 5000
  /\ select_customer_by_email "alice@example.com" (db w0) = Some alice
  /\ select_tier 1 (db w0) = Some "Standard"
  /\ select_tier 1
       (db (snd (page_add_points clk2024 "alice@example.com" 500%float "A-2"
                   true w0)))
     = Some (tier_for_spending
               (spending_of 2024 1
                  (db (after_earn clk2024 "alice@example.com" "A-2" 1 5000
                         w0)))).
Proof.
  split; [discriminate|]. split; [discriminate|].
  split; [reflexivity|]. split; [reflexivity|]. split; [reflexivity|].
  split; [reflexivity|].
  apply (proj1 (proj2 redeem_keeps_tier) clk2024 "alice@example.com" "A-2"
           500%float 5000 w0 alice);
    try discriminate; reflexivity.
Defined.

(** ** The end-to-end scenario of the program *)

Example scenario_first_purchase :
  let r := page_add_points clk2024 "alice@example.com" 100%float "A-1" true
             w0 in
  fst (get_customer_point_balance 1 (snd r)) = Return 1000
  /\ select_tier 1 (db (snd r)) = Some "Standard".
Proof. vm_compute. split; reflexivity. Qed.

Example scenario_second_purchase :
  let r1 := page_add_points clk2024 "alice@example.com" 100%float "A-1" true
              w0 in
  let r2 := page_add_points clk2024 "alice@example.com" 450%float "A-2" true
              (snd r1) in
  fst (get_customer_point_balance 1 (snd r2)) = Return 5500
  /\ select_tier 1 (db (snd r2)) = Some "Gold"
  /\ In (tier_message "Gold") (screen (snd r2)).
Proof. vm_compute. split; [reflexivity|]. split; [reflexivity|]. tauto. Qed.

(** A purchase of one cent earns [int(0.01 * 10) = 0] points, and the Add
    Points page records the entry. *)
Example one_cent_purchase_records_zero_points :
  PointsLedger
    (db (snd (page_add_points clk2024 "alice@example.com"
                0x1.47ae147ae147bp-7%float "A-3" true w0)))
  = [mkLedgerEntry 1 0 "earn" "Order #A-3" "2024-06-15 12:00:00"].
Proof. vm_compute. reflexivity. Qed.

(** ** The reward list is the catalog, cheapest first *)

Lemma Forall_perm {A} (P : A -> Prop) (l l' : list A) :
  Permutation l l' -> Forall P l -> Forall P l'.
Proof.
  intros Hp H. rewrite Forall_forall in *. intros x Hx.
  apply H. apply (Permutation_in (l := l')); [symmetry; exact Hp|exact Hx].
Qed.

Lemma insert_by_cost_sorted (r : Reward) (rs : list Reward) :
  StronglySorted cost_le rs -> StronglySorted cost_le (insert_by_cost r rs).
Proof.
  induction 1 as [|r' rs Hs IH Hall]; cbn [insert_by_cost].
  - constructor; constructor.
  - destruct (Z.leb_spec (points_cost r') (points_cost r)) as [Hle|Hgt].
    + constructor; [exact IH|].
      apply (Forall_perm _ (r :: rs));
        [symmetry; apply insert_by_cost_perm|].
      constructor; [exact Hle|exact Hall].
    + constructor; [constructor; [exact Hs|exact Hall]|].
      constructor; [unfold cost_le; lia|].
      apply (Forall_impl (P := cost_le r')); [|exact Hall].
      unfold cost_le. intros a Ha. lia.
Qed.

Lemma order_by_cost_sorted (rs : list Reward) :
  StronglySorted cost_le (order_by_cost rs).
Proof.
  unfold order_by_cost.
  assert (G : forall l acc, StronglySorted cost_le acc ->
              StronglySorted cost_le
                (fold_left (fun acc r => insert_by_cost r acc) l acc)).
  { induction l as [|r l IH]; intros acc Hacc; cbn [fold_left];
      [exact Hacc|].
    apply IH, insert_by_cost_sorted, Hacc. }
  apply G. constructor.
Qed.

(** X1.  [get_available_rewards] changes nothing and returns the rows of
    the reward table, each as often as the table has it, in ascending
    order of [points_cost]. *)
Theorem available_rewards_cheapest_first :
  forall w : World,
    exists rewards : list Reward,
      get_available_rewards w = (Return rewards, w)
      /\ Permutation rewards (Rewards (db w))
      /\ StronglySorted cost_le rewards.
Proof.
  intros w. exists (select_rewards (db w)). split; [reflexivity|]. split.
  - apply select_rewards_perm.
  - apply order_by_cost_sorted.
Qed.

(** ** The history of a customer *)

Lemma ascii_compare_trans (a b c : ascii) :
  Ascii.compare a b <> Gt -> Ascii.compare b c <> Gt ->
  Ascii.compare a c <> Gt
  /\ (Ascii.compare a c = Eq ->
      Ascii.compare a b = Eq /\ Ascii.compare b c = Eq).
Proof.
  unfold Ascii.compare. intros H1 H2.
  destruct (N.compare_spec (N_of_ascii a) (N_of_ascii b)) as [E1|L1|G1];
    [| |congruence];
    destruct (N.compare_spec (N_of_ascii b) (N_of_ascii c)) as [E2|L2|G2];
    try congruence;
    destruct (N.compare_spec (N_of_ascii a) (N_of_ascii c)) as [E3|L3|G3];
    try lia; split; try discriminate; try (intros _; split; reflexivity);
    intros; try discriminate.
Qed.

Lemma string_compare_trans (s t u : string) :
  String.compare s t <> Gt -> String.compare t u <> Gt ->
  String.compare s u <> Gt.
Proof.
  revert t u. induction s as [|a s IH]; intros [|b t] [|c u]; cbn;
    try congruence.
  intros H1 H2.
  destruct (Ascii.compare a b) eqn:Eab; [| |congruence];
    destruct (Ascii.compare b c) eqn:Ebc; try congruence;
    destruct (ascii_compare_trans a b c
                ltac:(rewrite Eab; discriminate)
                ltac:(rewrite Ebc; discriminate)) as [Hac Heq];
    destruct (Ascii.compare a c) eqn:Eac; try congruence;
    try discriminate;
    try (destruct (Heq eq_refl); congruence).
  apply (IH t u); assumption.
Qed.

Lemma string_leb_trans (s t u : string) :
  String.leb s t = true -> String.leb t u = true -> String.leb s u = true.
Proof.
  unfold String.leb. intros H1 H2.
  pose proof (string_compare_trans s t u) as T.
  destruct (String.compare s t); try discriminate;
    destruct (String.compare t u); try discriminate;
    destruct (String.compare s u); try reflexivity;
    exfalso; apply T; try discriminate; reflexivity.
Qed.

Lemma insert_by_timestamp_desc_perm (h : HistoryRow) (hs : list HistoryRow) :
  Permutation (insert_by_timestamp_desc h hs) (h :: hs).
Proof.
  induction hs as [|h' hs IH]; cbn; [reflexivity|].
  destruct (String.leb _ _); [|reflexivity].
  rewrite IH. apply perm_swap.
Qed.

Lemma order_by_timestamp_desc_perm (hs : list HistoryRow) :
  Permutation (order_by_timestamp_desc hs) hs.
Proof.
  unfold order_by_timestamp_desc.
  assert (G : forall l acc,
             Permutation
               (fold_left (fun acc h => insert_by_timestamp_desc h acc) l acc)
               (acc ++ l)).
  { induction l as [|h l IH]; intros acc; cbn [fold_left].
    - rewrite app_nil_r. reflexivity.
    - rewrite IH, insert_by_timestamp_desc_perm. apply Permutation_middle. }
  apply (G hs []).
Qed.

Lemma insert_by_timestamp_desc_sorted (h : HistoryRow) (hs : list HistoryRow) :
  StronglySorted not_older_text hs ->
  StronglySorted not_older_text (insert_by_timestamp_desc h hs).
Proof.
  induction 1 as [|h' hs Hs IH Hall]; cbn [insert_by_timestamp_desc].
  - constructor; constructor.
  - destruct (String.leb (history_timestamp h) (history_timestamp h')) eqn:E.
    + constructor; [exact IH|].
      apply (Forall_perm _ (h :: hs));
        [symmetry; apply insert_by_timestamp_desc_perm|].
      constructor; [exact E|exact Hall].
    + assert (E' : String.leb (history_timestamp h') (history_timestamp h)
                   = true).
      { destruct (String.leb_total (history_timestamp h)
                    (history_timestamp h')); congruence. }
      constructor; [constructor; [exact Hs|exact Hall]|].
      constructor; [exact E'|].
      apply (Forall_impl (P := not_older_text h')); [|exact Hall].
      unfold not_older_text. intros a Ha.
      apply (string_leb_trans _ (history_timestamp h')); assumption.
Qed.

Lemma order_by_timestamp_desc_sorted (hs : list HistoryRow) :
  StronglySorted not_older_text (order_by_timestamp_desc hs).
Proof.
  unfold order_by_timestamp_desc.
  assert (G : forall l acc, StronglySorted not_older_text acc ->
              StronglySorted not_older_text
                (fold_left (fun acc h => insert_by_timestamp_desc h acc)
                   l acc)).
  { induction l as [|h l IH]; intros acc Hacc; cbn [fold_left];
      [exact Hacc|].
    apply IH, insert_by_timestamp_desc_sorted, Hacc. }
  apply G. constructor.
Qed.

Lemma history_total_perm (hs hs' : list HistoryRow) :
  Permutation hs hs' -> history_total hs = history_total hs'.
Proof.
  induction 1 as [|h l l' _ IH|a b l|l l' l'' _ IH1 _ IH2]; cbn.
  - reflexivity.
  - fold (history_total l). fold (history_total l'). lia.
  - fold (history_total l). lia.
  - congruence.
Qed.

Lemma history_total_rows (ls : list LedgerEntry) :
  history_total (map history_row_of ls) = sum_points ls.
Proof.
  induction ls as [|l ls IH]; [reflexivity|].
  cbn. fold (history_total (map history_row_of ls)). fold (sum_points ls).
  lia.
Qed.

(** X2.  [get_customer_point_history] changes nothing and returns one row
    per ledger entry of the customer, carrying that entry's timestamp,
    type, points and note; the points of the rows add up to the balance
    [get_customer_point_balance] returns, and the history is empty exactly
    when the customer has no entry. *)
Theorem history_adds_up_to_balance :
  forall (cid : Z) (w : World),
    exists history : list HistoryRow,
      get_customer_point_history cid w = (Return history, w)
      /\ Permutation history (map history_row_of (entries_of cid (db w)))
      /\ fst (get_customer_point_balance cid w)
         = Return (history_total history)
      /\ (history = [] <-> entries_of cid (db w) = []).
Proof.
  intros cid w. exists (select_history cid (db w)).
  assert (P : Permutation (select_history cid (db w))
                (map history_row_of (entries_of cid (db w))))
    by apply order_by_timestamp_desc_perm.
  split; [reflexivity|]. split; [exact P|]. split.
  - rewrite get_customer_point_balance_run, (history_total_perm _ _ P),
            history_total_rows. reflexivity.
  - split; intros H.
    + rewrite H in P. apply Permutation_nil in P.
      apply map_eq_nil in P. exact P.
    + rewrite H in P. cbn in P. symmetry in P.
      apply Permutation_nil in P. exact P.
Qed.

Lemma not_older_text_chronological (a b : HistoryRow) :
  not_older_text a b -> not_older a b.
Proof.
  unfold not_older_text, not_older. intros H ta tb Va Vb Ea Eb.
  rewrite Ea, Eb, leb_compare, sqlite_datetime_compare in H
    by (apply valid_datetime_printable; assumption).
  intros Hlt.
  assert (C : datetime_compare tb ta = CompOpp (datetime_compare ta tb)).
  { rewrite <- !sqlite_datetime_compare
      by (apply valid_datetime_printable; assumption).
    apply String.compare_antisym. }
  rewrite C, Hlt in H. discriminate.
Qed.

(** X3.  The history comes newest first: every row's timestamp text is at
    least that of every later row, and when both texts are the store's
    [YYYY-MM-DD HH:MM:SS] for valid dates, the earlier row's date is not
    before the later row's. *)
Theorem history_is_newest_first :
  forall (cid : Z) (w : World),
    StronglySorted not_older_text (select_history cid (db w))
    /\ StronglySorted not_older (select_history cid (db w)).
Proof.
  intros cid w.
  assert (S : StronglySorted not_older_text (select_history cid (db w)))
    by apply order_by_timestamp_desc_sorted.
  split; [exact S|].
  induction S as [|h hs _ IH Hall]; constructor; [exact IH|].
  apply (Forall_impl (P := not_older_text h)); [|exact Hall].
  intros a. apply not_older_text_chronological.
Qed.

(** ** What the tier update keeps *)

Lemma spending_of_update_tier (year cid cid' : Z) (t : string) (d : DB) :
  spending_of year cid (update_tier t cid' d) = spending_of year cid d.
Proof. reflexivity. Qed.

(** X4.  Running [update_customer_tier] a second time right after the
    first, in the same year, repeats the first run's result and changes
    nothing more: no second write and no second message. *)
Theorem tier_update_is_idempotent :
  forall (year cid : Z) (w : World),
    let r := update_customer_tier year cid w in
    update_customer_tier year cid (snd r) = (fst r, snd r).
Proof.
  intros year cid w r. subst r. rewrite (update_customer_tier_run year cid w).
  destruct (select_tier cid (db w)) as [cur|] eqn:Hcur.
  - cbv zeta.
    destruct (String.eqb_spec (tier_for_spending (spending_of year cid (db w)))
                cur) as [Heq|Hne]; cbn [fst snd].
    + rewrite update_customer_tier_run, Hcur. cbv zeta.
      rewrite Heq, String.eqb_refl. reflexivity.
    + rewrite update_customer_tier_run. cbn [db].
      rewrite select_tier_update_tier, Hcur. cbn [option_map]. cbv zeta.
      rewrite spending_of_update_tier, String.eqb_refl. reflexivity.
  - cbn [fst snd]. rewrite update_customer_tier_run, Hcur. reflexivity.
Qed.

Lemma update_tier_rows (t : string) (cid : Z) (cs : list Customer) :
  Forall2 (same_customer_but_tier cid) cs
    (map (fun c => if customer_id c =? cid
                   then mkCustomer (customer_id c) (email c) (first_name c)
                                   (last_name c) t
                   else c) cs).
Proof.
  induction cs as [|c cs IH]; cbn [map]; constructor; [|exact IH].
  unfold same_customer_but_tier.
  destruct (Z.eqb_spec (customer_id c) cid) as [E|E]; cbn;
    repeat split; try reflexivity; intros; congruence.
Qed.

Lemma same_customer_refl (cid : Z) (cs : list Customer) :
  Forall2 (same_customer_but_tier cid) cs cs.
Proof.
  induction cs as [|c cs IH]; constructor; [|exact IH].
  unfold same_customer_but_tier. repeat split; reflexivity.
Qed.

(** X5.  [update_customer_tier] touches nothing but the tier of the rows
    of the customer it is called for: the customer table keeps its rows in
    place with their ids, emails and names, rows of other customers are
    unchanged, and the ledger and the reward table are unchanged. *)
Theorem tier_update_touches_one_customer :
  forall (year cid : Z) (w : World),
    let w' := snd (update_customer_tier year cid w) in
    Forall2 (same_customer_but_tier cid)
      (Customers (db w)) (Customers (db w'))
    /\ PointsLedger (db w') = PointsLedger (db w)
    /\ Rewards (db w') = Rewards (db w).
Proof.
  intros year cid w w'. subst w'.
  split; [|apply update_customer_tier_frame].
  rewrite update_customer_tier_run.
  destruct (select_tier cid (db w)) as [cur|];
    [|apply same_customer_refl].
  cbv zeta. destruct (String.eqb _ cur); cbn [snd db];
    [apply same_customer_refl|].
  apply update_tier_rows.
Qed.

Lemma select_tier_none_iff (cid : Z) (d : DB) :
  select_tier cid d = None <-> ~ In cid (map customer_id (Customers d)).
Proof.
  unfold select_tier.
  destruct (find (fun c => customer_id c =? cid) (Customers d)) as [c|] eqn:F.
  - split; [discriminate|]. intros H. exfalso. apply H.
    apply find_some in F. destruct F as [Hin E]. apply Z.eqb_eq in E.
    rewrite <- E. apply in_map. exact Hin.
  - split; [|reflexivity]. intros _ Hin.
    apply in_map_iff in Hin. destruct Hin as (c & E & Hin).
    apply (find_none _ _ F) in Hin. rewrite E, Z.eqb_refl in Hin.
    discriminate.
Qed.

(** X6.  [update_customer_tier] returns normally exactly when the customer
    id is in the customer table; for an id that is not, it raises the
    [TypeError] of subscripting [None] and leaves database and screen as
    they were. *)
Theorem tier_update_needs_the_customer :
  forall (year cid : Z) (w : World),
    let r := update_customer_tier year cid w in
    (fst r = Return tt <-> In cid (map customer_id (Customers (db w))))
    /\ (~ In cid (map customer_id (Customers (db w))) ->
        r = (Raise (TypeError "'NoneType' object is not subscriptable"), w)).
Proof.
  intros year cid w r. subst r. rewrite update_customer_tier_run.
  pose proof (select_tier_none_iff cid (db w)) as N.
  destruct (select_tier cid (db w)) as [cur|].
  - assert (Hin : In cid (map customer_id (Customers (db w)))).
    { destruct (in_dec Z.eq_dec cid (map customer_id (Customers (db w))))
        as [H|H]; [exact H|]. apply N in H. discriminate. }
    cbv zeta. split.
    + destruct (String.eqb _ cur); split; auto.
    + intros H. contradiction.
  - split; [|reflexivity]. cbn [fst]. split; [discriminate|].
    intros H. exfalso. apply (proj1 N); [reflexivity|exact H].
Qed.

Lemma tier_update_needs_the_customer_witness :
  ~ In 7 (map customer_id (Customers (db w0)))
  /\ update_customer_tier 2024 7 w0
     = (Raise (TypeError "'NoneType' object is not subscriptable"), w0).
Proof.
  assert (H : ~ In 7 (map customer_id (Customers (db w0)))).
  { cbn. intros [H|[]]. discriminate. }
  split; [exact H|].
  exact (proj2 (tier_update_needs_the_customer 2024 7 w0) H).
Defined.

Lemma tier_for_points (p : Z) :
  tier_for_spending (inject_Z p / inject_Z POINTS_PER_DOLLAR)%Q
  = if 5000 <=? p then "Gold" else "Standard".
Proof.
  unfold tier_for_spending, GOLD_TIER_THRESHOLD, POINTS_PER_DOLLAR.
  destruct (Z.leb_spec 5000 p) as [H|H].
  - assert (E : Qle_bool (inject_Z 500) (inject_Z p / inject_Z 10) = true).
    { apply Qle_bool_iff. unfold Qle, Qdiv, Qmult, Qinv, inject_Z. cbn. lia. }
    rewrite E. reflexivity.
  - destruct (Qle_bool (inject_Z 500) (inject_Z p / inject_Z 10)) eqn:E;
      [|reflexivity].
    apply Qle_bool_iff in E.
    unfold Qle, Qdiv, Qmult, Qinv, inject_Z in E. cbn in E. lia.
Qed.

(** X7.  In points: for a customer in the table, the tier stored by
    [update_customer_tier] is Gold when the customer's [earn] entries of
    the year add up to at least 5000 points and Standard otherwise; so a
    customer with no [earn] entry in the year, as at a year's start, is
    stored as Standard whatever the tier was. *)
Theorem gold_needs_5000_points_in_the_year :
  forall (year cid : Z) (w : World) (cur : string),
    select_tier cid (db w) = Some cur ->
    let stored :=
      select_tier cid (db (snd (update_customer_tier year cid w))) in
    stored = Some (if 5000 <=? points_earned year cid (db w)
                   then "Gold" else "Standard")
    /\ (earn_entries_in_year year cid (db w) = [] ->
        stored = Some "Standard").
Proof.
  intros year cid w cur Hcur stored.
  assert (H : stored = Some (if 5000 <=? points_earned year cid (db w)
                             then "Gold" else "Standard")).
  { subst stored. rewrite (update_customer_tier_stores year cid w cur Hcur).
    unfold spending_of. rewrite tier_for_points. reflexivity. }
  split; [exact H|].
  intros Hnil. rewrite H. unfold points_earned. rewrite Hnil. reflexivity.
Qed.

Lemma gold_needs_5000_points_in_the_year_witness :
  select_tier 1 (db w_gold_2024) = Some "Gold"
  /\ earn_entries_in_year 2025 1 (db w_gold_2024) = []
  /\ select_tier 1 (db (snd (update_customer_tier 2025 1 w_gold_2024)))
     = Some "Standard".
Proof.
  split; [reflexivity|]. split; [reflexivity|].
  exact (proj2 (gold_needs_5000_points_in_the_year 2025 1 w_gold_2024 "Gold"
                  eq_refl) eq_refl).
Defined.

(** ** The note of a redemption *)

Lemma substring_prefix (s t : string) :
  substring 0 (String.length s) (s ++ t) = s.
Proof.
  induction s as [|c s IH]; cbn; [destruct t; reflexivity|].
  rewrite IH. reflexivity.
Qed.

Lemma prefix_cons (a b : ascii) (s t : string) :
  prefix (String a s) (String b t)
  = if ascii_dec a b then prefix s t else false.
Proof. cbn [prefix]. destruct (ascii_dec a b); reflexivity. Qed.

Lemma prefix_paren_after (nm rest : string) :
  prefix " (" nm = false -> nm <> "" ->
  prefix " (" (nm ++ " (" ++ rest) = false.
Proof.
  destruct nm as [|c nm]; [congruence|]. intros H _.
  change ((String c nm ++ " (" ++ rest)%string)
    with (String c (nm ++ " (" ++ rest)).
  rewrite prefix_cons in *.
  destruct (ascii_dec " " c); [|reflexivity].
  destruct nm as [|d nm].
  - change (("" ++ " (" ++ rest)%string) with (String " " (String "(" rest)).
    rewrite prefix_cons.
    destruct (ascii_dec "(" " "); [discriminate|reflexivity].
  - change ((String d nm ++ " (" ++ rest)%string)
      with (String d (nm ++ " (" ++ rest)).
    rewrite prefix_cons in *.
    destruct (ascii_dec "(" d); [|reflexivity].
    destruct nm; discriminate.
Qed.

Lemma index_of_first_paren (nm rest : string) :
  index 0 " (" nm = None ->
  index 0 " (" (nm ++ " (" ++ rest) = Some (String.length nm).
Proof.
  induction nm as [|c nm IH]; intros H.
  { change (("" ++ " (" ++ rest)%string) with (String " " (String "(" rest)).
    cbn [index String.length]. rewrite !prefix_cons.
    destruct (ascii_dec " " " "); [|congruence].
    destruct (ascii_dec "(" "("); [|congruence].
    destruct rest; reflexivity. }
  assert (Hp : prefix " (" (String c nm) = false
               /\ index 0 " (" nm = None).
  { cbn [index] in H. destruct (prefix " (" (String c nm)); [discriminate|].
    split; [reflexivity|]. destruct (index 0 " (" nm); [discriminate|].
    reflexivity. }
  destruct Hp as [Hp Hi].
  change ((String c nm ++ " (" ++ rest)%string)
    with (String c (nm ++ " (" ++ rest)).
  cbn [index String.length].
  change (String c (nm ++ " (" ++ rest))
    with ((String c nm ++ " (" ++ rest)%string).
  rewrite (prefix_paren_after (String c nm) rest Hp) by discriminate.
  rewrite (IH Hi). reflexivity.
Qed.

(** The name of a reward is what the note keeps of its label, when the
    name itself holds no [" ("]. *)
Lemma split_head_reward_label (r : Reward) :
  index 0 " (" (name r) = None ->
  split_head " (" (reward_label r) = name r.
Proof.
  intros H. unfold split_head, reward_label.
  rewrite (index_of_first_paren (name r) _ H).
  apply substring_prefix.
Qed.

(** ** What the Redeem page never does *)

Lemma balance_after_insert_any now cid cid' points ty nt (d : DB) :
  sum_points (entries_of cid' (insert_ledger now cid points ty nt d))
  = sum_points (entries_of cid' d) + (if cid =? cid' then points else 0).
Proof.
  unfold entries_of, insert_ledger. cbn [PointsLedger].
  rewrite filter_app, sum_points_app. cbn [filter ledger_customer_id].
  destruct (cid =? cid'); cbn; lia.
Qed.

Lemma found_reward_in_catalog (d : DB) (rid : Z) (r : Reward) :
  find (fun x => reward_id x =? rid) (select_rewards d) = Some r ->
  In r (Rewards d).
Proof.
  intros H. apply find_some in H. destruct H as [Hin _].
  apply (Permutation_in (l := select_rewards d));
    [apply select_rewards_perm|exact Hin].
Qed.

(** The effect of one run of the Redeem page on the database and on the
    screen, path by path. *)
Lemma page_redeem_reward_effect clk email display button (w : World) :
  let r := page_redeem_reward clk email display button w in
  (fst r = Return tt /\ db (snd r) = db w
   /\ (screen (snd r) = screen w
       \/ exists m, screen (snd r) = (screen w ++ [m])%list
                    /\ m <> error "Selected reward not found."))
  \/ (r = (Raise (KeyError display), w)
      /\ dict_get display (reward_options_of (select_rewards (db w))) = None)
  \/ (exists c rid rw,
         select_customer_by_email email (db w) = Some c
         /\ dict_get display (reward_options_of (select_rewards (db w)))
            = Some rid
         /\ find (fun x => reward_id x =? rid) (select_rewards (db w))
            = Some rw
         /\ points_cost rw <= sum_points (entries_of (customer_id c) (db w))
         /\ r = (Return tt,
                 after_redeem clk display (customer_id c) (points_cost rw) w)).
Proof.
  cbv zeta. destruct button.
  - rewrite page_redeem_reward_run.
    destruct (str_is_falsy email); [left; auto|].
    destruct (select_customer_by_email email (db w)) as [c|].
    2:{ left. split; [reflexivity|]. split; [reflexivity|]. right.
        eexists. split; [reflexivity|discriminate]. }
    destruct (select_rewards (db w)) as [|r0 rs] eqn:R.
    { left. split; [reflexivity|]. split; [reflexivity|]. right.
      eexists. split; [reflexivity|discriminate]. }
    destruct (dict_get display (reward_options_of (r0 :: rs))) as [rid|] eqn:G;
      [|right; left; split; reflexivity].
    destruct (find (fun x => reward_id x =? rid) (r0 :: rs)) as [rw|] eqn:F.
    + destruct (Z.leb_spec (points_cost rw)
                  (sum_points (entries_of (customer_id c) (db w)))) as [L|L].
      * right. right. exists c, rid, rw. auto.
      * left. split; [reflexivity|]. split; [reflexivity|]. right.
        eexists. split; [reflexivity|discriminate].
    + exfalso. destruct (reward_options_get _ _ _ _ G)
        as [(r' & Hin & _ & Hid)|Hnil]; [|discriminate].
      apply (find_none _ _ F) in Hin. rewrite Hid, Z.eqb_refl in Hin.
      discriminate.
  - rewrite page_redeem_reward_idle.
    destruct (str_is_falsy email); [left; auto|].
    destruct (select_customer_by_email email (db w)) as [c|].
    2:{ left. split; [reflexivity|]. split; [reflexivity|]. right.
        eexists. split; [reflexivity|discriminate]. }
    destruct (select_rewards (db w)) as [|r0 rs]; [|left; auto].
    left. split; [reflexivity|]. split; [reflexivity|]. right.
    eexists. split; [reflexivity|discriminate].
Qed.

(** X8.  One run of the Redeem page, whatever the inputs, leaves the
    balance of every customer as it was or lowers it by the cost of a
    catalog reward that the balance covers; so a balance that was not
    negative is not negative afterwards, and when no catalog cost is
    negative no balance grows. *)
Theorem redeem_never_overdraws :
  forall (clk : Clock) (email display : string) (button : bool) (w : World)
         (cid : Z),
    let w' := snd (page_redeem_reward clk email display button w) in
    let before := sum_points (entries_of cid (db w)) in
    let after := sum_points (entries_of cid (db w')) in
    (after = before
     \/ exists r, In r (Rewards (db w)) /\ points_cost r <= before
                  /\ after = before - points_cost r)
    /\ (0 <= before -> 0 <= after)
    /\ (Forall (fun r => 0 <= points_cost r) (Rewards (db w)) ->
        after <= before).
Proof.
  intros clk email display button w cid w' before after.
  assert (H : after = before
              \/ exists r, In r (Rewards (db w)) /\ points_cost r <= before
                           /\ after = before - points_cost r).
  { subst after before w'.
    destruct (page_redeem_reward_effect clk email display button w)
      as [(_ & Hdb & _)|[(Hr & _)|(c & rid & rw & _ & _ & F & L & Hr)]].
    - left. rewrite Hdb. reflexivity.
    - left. rewrite Hr. reflexivity.
    - rewrite Hr. cbn [snd after_redeem db].
      rewrite balance_after_insert_any.
      destruct (Z.eqb_spec (customer_id c) cid) as [E|E]; [|left; lia].
      right. exists rw. split; [exact (found_reward_in_catalog _ _ _ F)|].
      rewrite <- E. split; [exact L|lia]. }
  split; [exact H|]. split.
  - intros Hb. destruct H as [H|(r & _ & Hle & H)]; lia.
  - intros Hall. destruct H as [H|(r & Hin & _ & H)]; [lia|].
    rewrite Forall_forall in Hall. specialize (Hall r Hin). lia.
Qed.

Lemma redeem_never_overdraws_witness :
  0 <= sum_points (entries_of 1 (db w_5500))
  /\ 0 <= sum_points
            (entries_of 1
               (db (snd (page_redeem_reward clk2024 "alice@example.com"
                           "Tote Bag (800 Points)" true w_5500)))).
Proof.
  assert (H : 0 <= sum_points (entries_of 1 (db w_5500)))
    by (vm_compute; discriminate).
  split; [exact H|].
  exact (proj1 (proj2 (redeem_never_overdraws clk2024 "alice@example.com"
                         "Tote Bag (800 Points)" true w_5500 1)) H).
Defined.

(** X9.  The Redeem page raises nothing when the selected label is one of
    the labels it offers, and otherwise raises only the [KeyError] of the
    label; on no input does it show "Selected reward not found.", since an
    id found under a label is the id of a listed reward. *)
Theorem redeem_lookup_never_misses :
  forall (clk : Clock) (email display : string) (button : bool) (w : World),
    let r := page_redeem_reward clk email display button w in
    (In display (dict_keys (reward_options_of (select_rewards (db w)))) ->
     fst r = Return tt)
    /\ (fst r = Return tt \/ fst r = Raise (KeyError display))
    /\ (screen (snd r) = screen w
        \/ exists m, screen (snd r) = (screen w ++ [m])%list
                     /\ m <> error "Selected reward not found.").
Proof.
  intros clk email display button w r. subst r.
  destruct (page_redeem_reward_effect clk email display button w)
    as [(Hf & _ & Hs)|[(Hr & Hnone)|(c & rid & rw & _ & _ & _ & _ & Hr)]].
  - split; [intros _; exact Hf|]. split; [left; exact Hf|exact Hs].
  - rewrite Hr. cbn [fst snd]. split; [|split; [right; reflexivity|left]].
    + intros Hin. apply dict_get_of_key in Hin. destruct Hin as [v Hv].
      congruence.
    + reflexivity.
  - rewrite Hr. cbn [fst snd after_redeem screen].
    split; [reflexivity|]. split; [left; reflexivity|].
    right. eexists. split; [reflexivity|discriminate].
Qed.

Lemma redeem_lookup_never_misses_witness :
  In "Sticker (100 Points)"
     (dict_keys (reward_options_of (select_rewards (db w_5500))))
  /\ fst (page_redeem_reward clk2024 "alice@example.com"
            "Sticker (100 Points)" true w_5500) = Return tt.
Proof.
  assert (H : In "Sticker (100 Points)"
                (dict_keys (reward_options_of (select_rewards (db w_5500)))))
    by (left; reflexivity).
  split; [exact H|].
  exact (proj1 (redeem_lookup_never_misses clk2024 "alice@example.com"
                  "Sticker (100 Points)" true w_5500) H).
Defined.

Lemma found_reward_has_label (d : DB) (display : string) (rid : Z)
    (r : Reward) :
  NoDup (map reward_id (Rewards d)) ->
  dict_get display (reward_options_of (select_rewards d)) = Some rid ->
  find (fun x => reward_id x =? rid) (select_rewards d) = Some r ->
  reward_label r = display.
Proof.
  intros Hnd G F.
  assert (Hnd' : NoDup (map reward_id (select_rewards d))).
  { apply (Permutation_NoDup (l := map reward_id (Rewards d))); [|exact Hnd].
    apply Permutation_map. symmetry. apply select_rewards_perm. }
  destruct (reward_options_get _ _ _ _ G) as [(r' & Hin & Hl & Hid)|Hnil];
    [|discriminate].
  rewrite <- Hid, (find_unique_id _ r' Hnd' Hin) in F.
  injection F as <-. exact Hl.
Qed.

(** X10.  When the reward ids of the catalog are unique, the only write
    of the Redeem page is one [redeem] entry whose points are minus the
    cost of a catalog reward whose label, name and cost included, is the
    selected label: the points deducted are the points the label shows. *)
Theorem redeem_charges_the_cost_shown :
  forall (clk : Clock) (email display : string) (button : bool) (w : World),
    NoDup (map reward_id (Rewards (db w))) ->
    let w' := snd (page_redeem_reward clk email display button w) in
    PointsLedger (db w') = PointsLedger (db w)
    \/ exists (cid : Z) (r : Reward),
         In r (Rewards (db w))
         /\ display = name r ++ " (" ++ str_of_int (points_cost r) ++ " Points)"
         /\ PointsLedger (db w')
            = (PointsLedger (db w)
               ++ [mkLedgerEntry cid (- points_cost r) "redeem"
                     ("Redeemed: " ++ split_head " (" display)
                     (CURRENT_TIMESTAMP clk)])%list.
Proof.
  intros clk email display button w Hnd w'. subst w'.
  destruct (page_redeem_reward_effect clk email display button w)
    as [(_ & Hdb & _)|[(Hr & _)|(c & rid & rw & _ & G & F & _ & Hr)]].
  - left. rewrite Hdb. reflexivity.
  - left. rewrite Hr. reflexivity.
  - right. exists (customer_id c), rw.
    split; [exact (found_reward_in_catalog _ _ _ F)|].
    split; [symmetry; exact (found_reward_has_label _ _ _ _ Hnd G F)|].
    rewrite Hr. reflexivity.
Qed.

Lemma redeem_charges_the_cost_shown_witness :
  NoDup (map reward_id (Rewards (db w_5500)))
  /\ (let w' := snd (page_redeem_reward clk2024 "alice@example.com"
                       "Tote Bag (800 Points)" true w_5500) in
      PointsLedger (db w') = PointsLedger (db w_5500)
      \/ exists (cid : Z) (r : Reward),
           In r (Rewards (db w_5500))
           /\ "Tote Bag (800 Points)"
              = name r ++ " (" ++ str_of_int (points_cost r) ++ " Points)"
           /\ PointsLedger (db w')
              = (PointsLedger (db w_5500)
                 ++ [mkLedgerEntry cid (- points_cost r) "redeem"
                       ("Redeemed: "
                        ++ split_head " (" "Tote Bag (800 Points)")
                       (CURRENT_TIMESTAMP clk2024)])%list).
Proof.
  assert (Hnd : NoDup (map reward_id (Rewards (db w_5500)))).
  { cbn. repeat constructor; cbn; intuition discriminate. }
  split; [exact Hnd|].
  exact (redeem_charges_the_cost_shown clk2024 "alice@example.com"
           "Tote Bag (800 Points)" true w_5500 Hnd).
Defined.

(** X11.  When the reward ids are unique and no reward name holds the
    text [" ("], the note of the entry the Redeem page writes is
    "Redeemed: " followed by the name of the reward whose cost is
    deducted. *)
Theorem redeem_note_names_the_reward :
  forall (clk : Clock) (email display : string) (button : bool) (w : World),
    NoDup (map reward_id (Rewards (db w))) ->
    Forall (fun r => index 0 " (" (name r) = None) (Rewards (db w)) ->
    let w' := snd (page_redeem_reward clk email display button w) in
    PointsLedger (db w') = PointsLedger (db w)
    \/ exists (cid : Z) (r : Reward),
         In r (Rewards (db w))
         /\ PointsLedger (db w')
            = (PointsLedger (db w)
               ++ [mkLedgerEntry cid (- points_cost r) "redeem"
                     ("Redeemed: " ++ name r) (CURRENT_TIMESTAMP clk)])%list.
Proof.
  intros clk email display button w Hnd Hnames w'. subst w'.
  destruct (page_redeem_reward_effect clk email display button w)
    as [(_ & Hdb & _)|[(Hr & _)|(c & rid & rw & _ & G & F & _ & Hr)]].
  - left. rewrite Hdb. reflexivity.
  - left. rewrite Hr. reflexivity.
  - right. exists (customer_id c), rw.
    pose proof (found_reward_in_catalog _ _ _ F) as Hin.
    split; [exact Hin|].
    rewrite Forall_forall in Hnames.
    rewrite Hr. cbn [snd after_redeem db insert_ledger PointsLedger].
    rewrite <- (found_reward_has_label _ _ _ _ Hnd G F).
    rewrite (split_head_reward_label rw (Hnames rw Hin)). reflexivity.
Qed.

Lemma redeem_note_names_the_reward_witness :
  NoDup (map reward_id (Rewards (db w_5500)))
  /\ Forall (fun r => index 0 " (" (name r) = None) (Rewards (db w_5500))
  /\ (let w' := snd (page_redeem_reward clk2024 "alice@example.com"
                       "Tote Bag (800 Points)" true w_5500) in
      PointsLedger (db w') = PointsLedger (db w_5500)
      \/ exists (cid : Z) (r : Reward),
           In r (Rewards (db w_5500))
           /\ PointsLedger (db w')
              = (PointsLedger (db w_5500)
                 ++ [mkLedgerEntry cid (- points_cost r) "redeem"
                       ("Redeemed: " ++ name r)
                       (CURRENT_TIMESTAMP clk2024)])%list).
Proof.
  assert (Hnd : NoDup (map reward_id (Rewards (db w_5500)))).
  { cbn. repeat constructor; cbn; intuition discriminate. }
  assert (Hn : Forall (fun r => index 0 " (" (name r) = None)
                 (Rewards (db w_5500))).
  { cbn. repeat constructor. }
  split; [exact Hnd|]. split; [exact Hn|].
  exact (redeem_note_names_the_reward clk2024 "alice@example.com"
           "Tote Bag (800 Points)" true w_5500 Hnd Hn).
Defined.

(** A reward name that holds [" ("] is cut at it in the note. *)
Example note_cuts_a_name_with_a_parenthesis :
  split_head " (" (reward_label (mkReward 4 "T-Shirt (Large)" 500))
  = "T-Shirt".
Proof. vm_compute. reflexivity. Qed.

(** ** What the Add Points and Customer Service pages write *)

(** The effect of one run of the Add Points page, path by path. *)
Lemma page_add_points_effect clk email amount order button (w : World) :
  let r := page_add_points clk email amount order button w in
  (fst r = Return tt /\ db (snd r) = db w
   /\ (button = false \/ str_is_falsy email = true
       \/ float_is_falsy amount = true \/ str_is_falsy order = true
       \/ select_customer_by_email email (db w) = None))
  \/ (exists e,
         r = (Raise e, w)
         /\ int_of_float (amount * float_of_small_int POINTS_PER_DOLLAR)%float
            = Raise e)
  \/ (exists c p,
         button = true /\ str_is_falsy email = false
         /\ float_is_falsy amount = false /\ str_is_falsy order = false
         /\ select_customer_by_email email (db w) = Some c
         /\ int_of_float (amount * float_of_small_int POINTS_PER_DOLLAR)%float
            = Return p
         /\ r = update_customer_tier (now_year clk) (customer_id c)
                  (after_earn clk email order (customer_id c) p w)).
Proof.
  cbv zeta. destruct button; [|left; auto].
  rewrite page_add_points_run.
  destruct (str_is_falsy email) eqn:E1; [left; auto|].
  destruct (float_is_falsy amount) eqn:E2; [left; auto 6|].
  destruct (str_is_falsy order) eqn:E3; [left; auto 7|]. cbn [orb].
  destruct (select_customer_by_email email (db w)) as [c|] eqn:Hc;
    [|left; auto 8].
  destruct (int_of_float _) as [p|e] eqn:Hp.
  - right. right. exists c, p. auto 8.
  - right. left. exists e. auto.
Qed.

(** The effect of one run of the Customer Service page, path by path. *)
Lemma page_customer_service_effect clk email points reason button
    (w : World) :
  let r := page_customer_service clk email points reason button w in
  (fst r = Return tt /\ db (snd r) = db w
   /\ (button = false \/ str_is_falsy email = true \/ points = 0
       \/ str_is_falsy reason = true
       \/ select_customer_by_email email (db w) = None))
  \/ (exists c,
         button = true /\ str_is_falsy email = false /\ points <> 0
         /\ str_is_falsy reason = false
         /\ select_customer_by_email email (db w) = Some c
         /\ r = update_customer_tier (now_year clk) (customer_id c)
                  (after_adjust clk email reason (customer_id c) points w)).
Proof.
  cbv zeta. destruct button; [|left; auto].
  rewrite page_customer_service_run.
  destruct (str_is_falsy email) eqn:E1; [left; auto|].
  destruct (Z.eqb_spec points 0) as [E2|E2]; [left; auto 6|].
  destruct (str_is_falsy reason) eqn:E3; [left; auto 7|]. cbn [orb].
  destruct (select_customer_by_email email (db w)) as [c|] eqn:Hc;
    [|left; auto 8].
  right. exists c. auto 8.
Qed.

Lemma balance_after_tier_update (year cid cid' : Z) (w : World) :
  sum_points (entries_of cid' (db (snd (update_customer_tier year cid w))))
  = sum_points (entries_of cid' (db w)).
Proof.
  unfold entries_of.
  rewrite (proj1 (update_customer_tier_frame year cid w)). reflexivity.
Qed.



(** ** Points of a purchase *)

Lemma binary_round_aux_sign (s : bool) (m e : Z) (l : location) :
  match binary_round_aux prec emax s m e l with
  | S754_zero s' | S754_infinity s' | S754_finite s' _ _ => s' = s
  | S754_nan => True
  end.
Proof.
  unfold binary_round_aux.
  destruct (shr_fexp prec emax m e l) as [mrs' e'].
  destruct (shr_fexp prec emax _ e' loc_Exact) as [mrs'' e''].
  destruct (shr_m mrs''); [reflexivity| |exact I].
  destruct (e'' <=? emax - prec); reflexivity.
Qed.

(** A purchase amount above zero earns no negative number of points. *)
Lemma purchase_points_nonneg (amount : float) (p : Z) :
  (0 <? amount)%float = true ->
  int_of_float (amount * float_of_small_int POINTS_PER_DOLLAR)%float
  = Return p ->
  0 <= p.
Proof.
  intros Hpos Hp. rewrite ltb_spec in Hpos.
  unfold int_of_float in Hp. rewrite mul_spec in Hp.
  change (Prim2SF 0%float) with (S754_zero false) in Hpos.
  assert (Hten : exists m e,
             Prim2SF (float_of_small_int POINTS_PER_DOLLAR)
             = S754_finite false m e)
    by (eexists; eexists; vm_compute; reflexivity).
  destruct Hten as (m10 & e10 & Hten). rewrite Hten in Hp. clear Hten.
  destruct (Prim2SF amount) as [s|s| |s m e]; cbn in Hpos; try discriminate;
    destruct s; try discriminate; cbn [SF64mul SFmul xorb] in Hp;
    try discriminate.
  pose proof (binary_round_aux_sign false (Z.pos (m * m10)) (e + e10)
                loc_Exact) as S.
  destruct (binary_round_aux prec emax false (Z.pos (m * m10)) (e + e10)
              loc_Exact) as [s'|s'| |s' m' e']; try discriminate.
  - injection Hp as <-. lia.
  - subst s'. injection Hp as <-. apply Z.shiftl_nonneg. lia.
Qed.

Lemma positive_is_truthy (amount : float) :
  (0 <? amount)%float = true -> float_is_falsy amount = false.
Proof.
  unfold float_is_falsy. rewrite ltb_spec, eqb_spec.
  change (Prim2SF 0%float) with (S754_zero false).
  destruct (Prim2SF amount) as [s|s| |s m e]; cbn; try discriminate;
    destruct s; try discriminate; reflexivity.
Qed.

Lemma earn_entries_after_insert_sum now cid points ty nt year c (d : DB) :
  0 <= points ->
  points_earned year c d
  <= points_earned year c (insert_ledger now cid points ty nt d).
Proof.
  intros Hp. unfold points_earned.
  rewrite earn_entries_after_insert, sum_points_app.
  unfold earn_entries_in_year at 3. cbn [PointsLedger filter].
  destruct (_ && _ && _); cbn; lia.
Qed.

Lemma points_earned_after_tier_update (year year' cid cid' : Z) (w : World) :
  points_earned year' cid' (db (snd (update_customer_tier year cid w)))
  = points_earned year' cid' (db w).
Proof.
  unfold points_earned, earn_entries_in_year.
  rewrite (proj1 (update_customer_tier_frame year cid w)). reflexivity.
Qed.

(** X13.  With a purchase amount above zero, one run of the Add Points
    page lowers no customer's balance and no customer's points earned in
    any year. *)
Theorem purchase_lowers_nothing :
  forall (clk : Clock) (email order : string) (amount : float)
         (button : bool) (w : World) (year cid : Z),
    (0 <? amount)%float = true ->
    let w' := snd (page_add_points clk email amount order button w) in
    sum_points (entries_of cid (db w)) <= sum_points (entries_of cid (db w'))
    /\ points_earned year cid (db w) <= points_earned year cid (db w').
Proof.
  intros clk email order amount button w year cid Hpos w'. subst w'.
  destruct (page_add_points_effect clk email amount order button w)
    as [(_ & Hdb & _)|[(e & Hr & _)|
        (c & p & _ & _ & _ & _ & _ & Hp & Hr)]].
  - rewrite Hdb. split; reflexivity.
  - rewrite Hr. split; reflexivity.
  - pose proof (purchase_points_nonneg amount p Hpos Hp) as Hnn.
    rewrite Hr, balance_after_tier_update, points_earned_after_tier_update.
    unfold after_earn. cbn [db]. split.
    + rewrite balance_after_insert_any.
      destruct (customer_id c =? cid); lia.
    + apply earn_entries_after_insert_sum. exact Hnn.
Qed.

Lemma purchase_lowers_nothing_witness :
  (0 <? 100)%float = true
  /\ sum_points (entries_of 1 (db w0))
     <= sum_points
          (entries_of 1
             (db (snd (page_add_points clk2024 "alice@example.com" 100%float
                         "A-1" true w0)))).
Proof.
  split; [reflexivity|].
  exact (proj1 (purchase_lowers_nothing clk2024 "alice@example.com" "A-1"
                  100%float true w0 2024 1 eq_refl)).
Defined.

(** X14.  A customer whose [earn] entries of the clock's year already add
    up to 5000 points is stored as Gold after any further purchase with
    an amount above zero that the Add Points page records. *)
Theorem purchase_keeps_gold :
  forall (clk : Clock) (email order : string) (amount : float) (w : World)
         (c : Customer) (p : Z),
    (0 <? amount)%float = true ->
    email <> "" -> order <> "" ->
    select_customer_by_email email (db w) = Some c ->
    int_of_float (amount * float_of_small_int POINTS_PER_DOLLAR)%float
    = Return p ->
    5000 <= points_earned (now_year clk) (customer_id c) (db w) ->
    select_tier (customer_id c)
      (db (snd (page_add_points clk email amount order true w)))
    = Some "Gold".
Proof.
  intros clk email order amount w c p Hpos Hemail Horder Hc Hp Hgold.
  rewrite page_add_points_run.
  rewrite (nonempty_is_truthy email Hemail),
          (nonempty_is_truthy order Horder),
          (positive_is_truthy amount Hpos). cbn [orb].
  rewrite Hc, Hp.
  destruct (email_found_has_tier _ _ _ Hc) as [t Ht].
  rewrite (update_customer_tier_stores (now_year clk) (customer_id c)
             (after_earn clk email order (customer_id c) p w) t Ht).
  unfold spending_of. rewrite tier_for_points.
  fold (points_earned (now_year clk) (customer_id c)
          (db (after_earn clk email order (customer_id c) p w))).
  pose proof (earn_entries_after_insert_sum (CURRENT_TIMESTAMP clk)
                (customer_id c) p "earn" ("Order #" ++ order) (now_year clk)
                (customer_id c) (db w)
                (purchase_points_nonneg amount p Hpos Hp)) as Hmono.
  unfold after_earn. cbn [db].
  destruct (Z.leb_spec 5000
              (points_earned (now_year clk) (customer_id c)
                 (insert_ledger (CURRENT_TIMESTAMP clk) (customer_id c) p
                    "earn" ("Order #" ++ order) (db w)))); [reflexivity|lia].
Qed.

Lemma purchase_keeps_gold_witness :
  (0 <? 1)%float = true
  /\ select_customer_by_email "alice@example.com" (db w_5500)
     = Some (mkCustomer 1 "alice@example.com" "Alice" "Archer" "Gold")
  /\ 5000 <= points_earned 2024 1 (db w_5500)
  /\ select_tier 1
       (db (snd (page_add_points clk2024 "alice@example.com" 1%float "A-9"
                   true w_5500)))
     = Some "Gold".
Proof.
  split; [reflexivity|]. split; [reflexivity|].
  split; [vm_compute; discriminate|].
  apply (purchase_keeps_gold clk2024 "alice@example.com" "A-9" 1%float w_5500
           (mkCustomer 1 "alice@example.com" "Alice" "Archer" "Gold") 10);
    try discriminate; reflexivity.
Defined.

(** ** Only purchases count toward the tier *)

Lemma earn_entries_after_other_type now cid points ty nt year c (d : DB) :
  String.eqb ty "earn" = false ->
  earn_entries_in_year year c (insert_ledger now cid points ty nt d)
  = earn_entries_in_year year c d.
Proof.
  intros Hty. rewrite earn_entries_after_insert.
  unfold earn_entries_in_year at 2.
  cbn [PointsLedger filter transaction_type].
  rewrite Hty, andb_false_r. cbn. apply app_nil_r.
Qed.

Lemma earn_entries_after_tier_update (year year' cid cid' : Z) (w : World) :
  earn_entries_in_year year' cid' (db (snd (update_customer_tier year cid w)))
  = earn_entries_in_year year' cid' (db w).
Proof.
  unfold earn_entries_in_year.
  rewrite (proj1 (update_customer_tier_frame year cid w)). reflexivity.
Qed.

(** X15.  Redemptions and manual adjustments never count as spending: a
    run of the Redeem page or of the Customer Service page leaves the
    yearly spending of every customer, for every year, as it was; and the
    tier the Customer Service page leaves stored for the adjusted customer
    is the tier of the spending before the adjustment, however many
    points were added. *)
Theorem only_purchases_count_as_spending :
  forall (clk : Clock) (email display reason : string) (points : Z)
         (button : bool) (w : World),
    (forall year cid,
        spending_of year cid
          (db (snd (page_redeem_reward clk email display button w)))
        = spending_of year cid (db w))
    /\ (forall year cid,
          spending_of year cid
            (db (snd (page_customer_service clk email points reason button w)))
          = spending_of year cid (db w))
    /\ (forall c,
          button = true -> email <> "" -> reason <> "" -> points <> 0 ->
          select_customer_by_email email (db w) = Some c ->
          select_tier (customer_id c)
            (db (snd (page_customer_service clk email points reason button w)))
          = Some (tier_for_spending
                    (spending_of (now_year clk) (customer_id c) (db w)))).
Proof.
  intros clk email display reason points button w.
  assert (Hcs : forall year cid,
             spending_of year cid
               (db (snd (page_customer_service clk email points reason
                           button w)))
             = spending_of year cid (db w)).
  { intros year cid. unfold spending_of.
    destruct (page_customer_service_effect clk email points reason button w)
      as [(_ & Hdb & _)|(c & _ & _ & _ & _ & _ & Hr)].
    - rewrite Hdb. reflexivity.
    - rewrite Hr, earn_entries_after_tier_update. unfold after_adjust.
      cbn [db]. rewrite earn_entries_after_other_type by reflexivity.
      reflexivity. }
  split; [|split; [exact Hcs|]].
  - intros year cid. unfold spending_of.
    destruct (page_redeem_reward_effect clk email display button w)
      as [(_ & Hdb & _)|[(Hr & _)|(c & rid & rw & _ & _ & _ & _ & Hr)]].
    + rewrite Hdb. reflexivity.
    + rewrite Hr. reflexivity.
    + rewrite Hr. unfold after_redeem. cbn [snd db].
      rewrite earn_entries_after_other_type by reflexivity. reflexivity.
  - intros c Hb Hemail Hreason Hpoints Hc. subst button.
    rewrite page_customer_service_run.
    rewrite (nonempty_is_truthy email Hemail),
            (nonempty_is_truthy reason Hreason),
            (proj2 (Z.eqb_neq points 0) Hpoints). cbn [orb]. rewrite Hc.
    destruct (email_found_has_tier _ _ _ Hc) as [t Ht].
    rewrite (update_customer_tier_stores (now_year clk) (customer_id c)
               (after_adjust clk email reason (customer_id c) points w) t Ht).
    unfold spending_of, after_adjust. cbn [db].
    rewrite earn_entries_after_other_type by reflexivity. reflexivity.
Qed.

Lemma only_purchases_count_as_spending_witness :
  select_customer_by_email "alice@example.com" (db w0) = Some alice
  /\ fst (get_customer_point_balance 1
            (snd (page_customer_service clk2024 "alice@example.com" 9000
                    "promotion" true w0))) = Return 9000
  /\ select_tier 1
       (db (snd (page_customer_service clk2024 "alice@example.com" 9000
                   "promotion" true w0)))
     = Some (tier_for_spending (spending_of 2024 1 (db w0))).
Proof.
  split; [reflexivity|]. split; [vm_compute; reflexivity|].
  apply (proj2 (proj2 (only_purchases_count_as_spending clk2024
                         "alice@example.com" "" "promotion" 9000 true w0))
           alice); try discriminate; reflexivity.
Defined.

(** ** Sessions *)

Lemma kept_customer_refl (cs : list Customer) : Forall2 kept_customer cs cs.
Proof.
  induction cs as [|c cs IH]; constructor; [|exact IH].
  unfold kept_customer. auto 6.
Qed.

Lemma kept_customer_trans (l1 l2 l3 : list Customer) :
  Forall2 kept_customer l1 l2 -> Forall2 kept_customer l2 l3 ->
  Forall2 kept_customer l1 l3.
Proof.
  intros H. revert l3. induction H as [|a b l1 l2 Hab _ IH]; intros l3 H23;
    inversion H23 as [|? c ? l3' Hbc H23']; subst; constructor.
  - unfold kept_customer in *.
    destruct Hab as (A1 & A2 & A3 & A4 & A5).
    destruct Hbc as (B1 & B2 & B3 & B4 & B5).
    repeat split; try congruence.
    destruct B5 as [B5|B5]; [|right; exact B5].
    destruct A5 as [A5|A5]; [left; congruence|right].
    rewrite B5. exact A5.
  - apply IH. exact H23'.
Qed.

Lemma kept_customer_ids (l1 l2 : list Customer) :
  Forall2 kept_customer l1 l2 -> map customer_id l2 = map customer_id l1.
Proof.
  induction 1 as [|a b l1 l2 (E & _) _ IH]; cbn; [reflexivity|].
  rewrite E, IH. reflexivity.
Qed.

Lemma tier_for_spending_cases (s : Q) :
  tier_for_spending s = "Gold" \/ tier_for_spending s = "Standard".
Proof. unfold tier_for_spending. destruct (Qle_bool _ s); auto. Qed.

Lemma update_customer_tier_keeps (year cid : Z) (w : World) :
  Forall2 kept_customer (Customers (db w))
    (Customers (db (snd (update_customer_tier year cid w)))).
Proof.
  rewrite update_customer_tier_run.
  destruct (select_tier cid (db w)) as [cur|]; [|apply kept_customer_refl].
  cbv zeta. destruct (String.eqb _ cur); [apply kept_customer_refl|].
  cbn [snd db update_tier Customers].
  generalize (tier_for_spending_cases (spending_of year cid (db w))).
  generalize (tier_for_spending (spending_of year cid (db w))).
  intros t Ht. induction (Customers (db w)) as [|c cs IH]; cbn [map];
    constructor; [|exact IH].
  unfold kept_customer. destruct (customer_id c =? cid); cbn; auto 6.
Qed.

Lemma email_found_in_table (e : string) (d : DB) (c : Customer) :
  select_customer_by_email e d = Some c ->
  In (customer_id c) (map customer_id (Customers d)).
Proof.
  intros H. apply find_some in H. apply in_map. exact (proj1 H).
Qed.

(** What one run does to the tables. *)
Lemma run_page_step (p : page_run) (w : World) :
  let w' := snd (run_page p w) in
  Forall2 kept_customer (Customers (db w)) (Customers (db w'))
  /\ Rewards (db w') = Rewards (db w)
  /\ exists added,
       PointsLedger (db w') = (PointsLedger (db w) ++ added)%list
       /\ (List.length added <= 1)%nat
       /\ Forall (page_entry (Customers (db w))) added.
Proof.
  cbv zeta.
  assert (Same : forall w' : World,
             db w' = db w ->
             Forall2 kept_customer (Customers (db w)) (Customers (db w'))
             /\ Rewards (db w') = Rewards (db w)
             /\ exists added,
                  PointsLedger (db w') = (PointsLedger (db w) ++ added)%list
                  /\ (List.length added <= 1)%nat
                  /\ Forall (page_entry (Customers (db w))) added).
  { intros w' E. rewrite E. split; [apply kept_customer_refl|].
    split; [reflexivity|]. exists []. rewrite app_nil_r.
    split; [reflexivity|]. split; [cbn; lia|constructor]. }
  assert (One : forall (e : LedgerEntry) year cid (w1 : World),
             db w1 = mkDB (Customers (db w))
                          (PointsLedger (db w) ++ [e]) (Rewards (db w)) ->
             page_entry (Customers (db w)) e ->
             let w' := snd (update_customer_tier year cid w1) in
             Forall2 kept_customer (Customers (db w)) (Customers (db w'))
             /\ Rewards (db w') = Rewards (db w)
             /\ exists added,
                  PointsLedger (db w') = (PointsLedger (db w) ++ added)%list
                  /\ (List.length added <= 1)%nat
                  /\ Forall (page_entry (Customers (db w))) added).
  { intros e year cid w1 E He w'. subst w'.
    pose proof (update_customer_tier_keeps year cid w1) as K.
    pose proof (update_customer_tier_frame year cid w1) as [L R].
    rewrite E in K, L, R. cbn [Customers PointsLedger Rewards] in K, L, R.
    split; [exact K|]. split; [exact R|]. exists [e].
    split; [exact L|]. split; [cbn; lia|].
    constructor; [exact He|constructor]. }
  destruct p as [clk e a o b|clk e s b|clk e n r b]; cbn [run_page].
  - destruct (page_add_points_effect clk e a o b w)
      as [(_ & Hdb & _)|[(x & Hr & _)|
          (c & p & _ & _ & _ & _ & Hc & _ & Hr)]].
    + apply Same. exact Hdb.
    + apply Same. rewrite Hr. reflexivity.
    + rewrite Hr. eapply One; [reflexivity|].
      split; [left; reflexivity|exact (email_found_in_table _ _ _ Hc)].
  - destruct (page_redeem_reward_effect clk e s b w)
      as [(_ & Hdb & _)|[(Hr & _)|(c & rid & rw & Hc & _ & _ & _ & Hr)]].
    + apply Same. exact Hdb.
    + apply Same. rewrite Hr. reflexivity.
    + rewrite Hr. cbn [snd after_redeem db insert_ledger Customers Rewards
                         PointsLedger].
      split; [apply kept_customer_refl|]. split; [reflexivity|].
      eexists. split; [reflexivity|]. split; [cbn; lia|].
      constructor; [|constructor].
      split; [right; left; reflexivity|exact (email_found_in_table _ _ _ Hc)].
  - destruct (page_customer_service_effect clk e n r b w)
      as [(_ & Hdb & _)|(c & _ & _ & _ & _ & Hc & Hr)].
    + apply Same. exact Hdb.
    + rewrite Hr. eapply One; [reflexivity|].
      split; [right; right; reflexivity|exact (email_found_in_table _ _ _ Hc)].
Qed.

Lemma run_session_tables (ps : list page_run) (w : World) :
  let w' := run_session ps w in
  Forall2 kept_customer (Customers (db w)) (Customers (db w'))
  /\ Rewards (db w') = Rewards (db w)
  /\ exists added,
       PointsLedger (db w') = (PointsLedger (db w) ++ added)%list
       /\ (List.length added <= List.length ps)%nat
       /\ Forall (page_entry (Customers (db w))) added.
Proof.
  cbv zeta. revert w. induction ps as [|p ps IH]; intros w; cbn [run_session].
  - split; [apply kept_customer_refl|]. split; [reflexivity|].
    exists []. rewrite app_nil_r. split; [reflexivity|].
    split; [cbn; lia|constructor].
  - destruct (run_page_step p w) as (K1 & R1 & a1 & L1 & N1 & F1).
    destruct (IH (snd (run_page p w))) as (K2 & R2 & a2 & L2 & N2 & F2).
    split; [exact (kept_customer_trans _ _ _ K1 K2)|].
    split; [congruence|].
    exists (a1 ++ a2)%list. split; [rewrite L2, L1, app_assoc; reflexivity|].
    split; [rewrite length_app; cbn [List.length]; lia|].
    apply Forall_app. split; [exact F1|].
    apply (Forall_impl (P := page_entry (Customers (db (snd (run_page p w))))));
      [|exact F2].
    unfold page_entry. intros x [T I]. split; [exact T|].
    rewrite (kept_customer_ids _ _ K1) in I. exact I.
Qed.

(** X16.  The ledger is append-only: after any list of runs of the three
    pages, the ledger is the ledger before followed by at most one new
    entry per run; every new entry has one of the three transaction types
    and the id of a customer of the customer table. *)
Theorem ledger_is_append_only :
  forall (ps : list page_run) (w : World),
    exists added : list LedgerEntry,
      PointsLedger (db (run_session ps w))
      = (PointsLedger (db w) ++ added)%list
      /\ (List.length added <= List.length ps)%nat
      /\ Forall (fun e => known_type (transaction_type e)
                          /\ In (ledger_customer_id e)
                               (map customer_id (Customers (db w))))
                added.
Proof.
  intros ps w. destruct (run_session_tables ps w) as (_ & _ & H). exact H.
Qed.

(** X17.  After any list of runs of the three pages, the customer table
    has the same rows in the same places with their ids, emails and names;
    a tier is as it was or is one of Gold and Standard; and the reward
    table is unchanged. *)
Theorem pages_keep_customers_and_rewards :
  forall (ps : list page_run) (w : World),
    Forall2 kept_customer
      (Customers (db w)) (Customers (db (run_session ps w)))
    /\ map customer_id (Customers (db (run_session ps w)))
       = map customer_id (Customers (db w))
    /\ Rewards (db (run_session ps w)) = Rewards (db w).
Proof.
  intros ps w. destruct (run_session_tables ps w) as (K & R & _).
  split; [exact K|]. split; [exact (kept_customer_ids _ _ K)|exact R].
Qed.

Lemma run_page_keeps_nonnegative (p : page_run) (w : World) (cid : Z) :
  takes_nothing_unearned p ->
  0 <= sum_points (entries_of cid (db w)) ->
  0 <= sum_points (entries_of cid (db (snd (run_page p w)))).
Proof.
  intros Hp Hb. destruct p as [clk e a o b|clk e s b|clk e n r b];
    cbn [run_page takes_nothing_unearned] in *.
  - destruct (page_add_points_effect clk e a o b w)
      as [(_ & Hdb & _)|[(x & Hr & _)|
          (c & p & _ & _ & _ & _ & _ & Hpt & Hr)]].
    + rewrite Hdb. exact Hb.
    + rewrite Hr. exact Hb.
    + rewrite Hr, balance_after_tier_update. unfold after_earn. cbn [db].
      rewrite balance_after_insert_any.
      pose proof (purchase_points_nonneg a p Hp Hpt).
      destruct (customer_id c =? cid); lia.
  - destruct (page_redeem_reward_effect clk e s b w)
      as [(_ & Hdb & _)|[(Hr & _)|(c & rid & rw & _ & _ & _ & L & Hr)]].
    + rewrite Hdb. exact Hb.
    + rewrite Hr. exact Hb.
    + rewrite Hr. unfold after_redeem. cbn [snd db].
      rewrite balance_after_insert_any.
      destruct (Z.eqb_spec (customer_id c) cid) as [E|E]; [|lia].
      rewrite <- E. lia.
  - destruct (page_customer_service_effect clk e n r b w)
      as [(_ & Hdb & _)|(c & _ & _ & _ & _ & _ & Hr)].
    + rewrite Hdb. exact Hb.
    + rewrite Hr, balance_after_tier_update. unfold after_adjust. cbn [db].
      rewrite balance_after_insert_any.
      destruct (customer_id c =? cid); lia.
Qed.

(** X18.  Only a manual adjustment by a negative number of points can
    make a balance negative: after any list of runs that are purchases of
    an amount above zero, redemptions, or adjustments by a non-negative
    number of points, a balance that was not negative is not negative. *)
Theorem balance_stays_nonnegative :
  forall (ps : list page_run) (w : World) (cid : Z),
    Forall takes_nothing_unearned ps ->
    0 <= sum_points (entries_of cid (db w)) ->
    fst (get_customer_point_balance cid (run_session ps w))
    = Return (sum_points (entries_of cid (db (run_session ps w))))
    /\ 0 <= sum_points (entries_of cid (db (run_session ps w))).
Proof.
  intros ps w cid Hps Hb.
  split; [rewrite get_customer_point_balance_run; reflexivity|].
  revert w Hb. induction Hps as [|p ps Hp _ IH]; intros w Hb;
    cbn [run_session]; [exact Hb|].
  apply IH. apply run_page_keeps_nonnegative; assumption.
Qed.

Lemma balance_stays_nonnegative_witness :
  Forall takes_nothing_unearned
    [AddPoints clk2024 "alice@example.com" 100%float "A-1" true;
     RedeemReward clk2024 "alice@example.com" "Tote Bag (800 Points)" true;
     RedeemReward clk2024 "alice@example.com" "Tote Bag (800 Points)" true]
  /\ 0 <= sum_points (entries_of 1 (db w0))
  /\ 0 <= sum_points
            (entries_of 1
               (db (run_session
                      [AddPoints clk2024 "alice@example.com" 100%float "A-1"
                         true;
                       RedeemReward clk2024 "alice@example.com"
                         "Tote Bag (800 Points)" true;
                       RedeemReward clk2024 "alice@example.com"
                         "Tote Bag (800 Points)" true]
                      w0))).
Proof.
  assert (Hps : Forall takes_nothing_unearned
                  [AddPoints clk2024 "alice@example.com" 100%float "A-1" true;
                   RedeemReward clk2024 "alice@example.com"
                     "Tote Bag (800 Points)" true;
                   RedeemReward clk2024 "alice@example.com"
                     "Tote Bag (800 Points)" true]).
  { repeat constructor. }
  assert (Hb : 0 <= sum_points (entries_of 1 (db w0)))
    by (vm_compute; discriminate).
  split; [exact Hps|]. split; [exact Hb|].
  exact (proj2 (balance_stays_nonnegative _ w0 1 Hps Hb)).
Defined.

(** ** Looking a customer up *)

(** X19.  [get_customer_by_email] changes nothing; the row it returns is
    a row of the customer table with exactly the email asked for, the
    first such row, and it returns [None] exactly when no row has that
    email. *)
Theorem customer_lookup_by_email :
  forall (e : string) (w : World),
    exists found : option Customer,
      get_customer_by_email e w = (Return found, w)
      /\ (forall c, found = Some c ->
            email c = e
            /\ exists before after,
                 Customers (db w) = (before ++ c :: after)%list
                 /\ Forall (fun c' => email c' <> e) before)
      /\ (found = None <-> Forall (fun c => email c <> e) (Customers (db w))).
Proof.
  intros e w. exists (select_customer_by_email e (db w)).
  split; [reflexivity|]. unfold select_customer_by_email.
  induction (Customers (db w)) as [|c0 cs [IH1 IH2]]; cbn [find].
  - split; [discriminate|]. split; [constructor|reflexivity].
  - destruct (String.eqb_spec (email c0) e) as [E|E].
    + split.
      * intros c Hc. injection Hc as <-. split; [exact E|].
        exists [], cs. split; [reflexivity|constructor].
      * split; [discriminate|]. intros H. inversion H. contradiction.
    + split.
      * intros c Hc. destruct (IH1 c Hc) as (Hm & b & a & Hs & Hb).
        split; [exact Hm|]. exists (c0 :: b), a.
        split; [rewrite Hs; reflexivity|]. constructor; assumption.
      * rewrite IH2. split.
        -- intros H. constructor; assumption.
        -- intros H. inversion H. assumption.
Qed.

(** ** The two clocks *)

(** X20.  A purchase counts toward the tier evaluated right after it
    exactly when the store stamps it in the year the application's clock
    shows: with a valid store date and a four-digit clock year, the points
    earned in the clock's year grow by the purchase when the two years
    agree and stay as they were when they differ. *)
Theorem purchase_counts_when_the_clocks_agree :
  forall (clk : Clock) (email order : string) (amount : float) (w : World)
         (c : Customer) (p : Z) (t : datetime),
    email <> "" -> order <> "" -> float_is_falsy amount = false ->
    select_customer_by_email email (db w) = Some c ->
    int_of_float (amount * float_of_small_int POINTS_PER_DOLLAR)%float
    = Return p ->
    valid_datetime t -> CURRENT_TIMESTAMP clk = sqlite_datetime t ->
    1000 <= now_year clk <= 9999 ->
    let w' := snd (page_add_points clk email amount order true w) in
    points_earned (now_year clk) (customer_id c) (db w')
    = points_earned (now_year clk) (customer_id c) (db w)
      + (if dt_year t =? now_year clk then p else 0)
    /\ select_tier (customer_id c) (db w')
       = Some (if 5000 <=? points_earned (now_year clk) (customer_id c) (db w')
               then "Gold" else "Standard").
Proof.
  intros clk email order amount w c p t Hemail Horder Hamount Hc Hp Ht Hnow
         Hyear w'.
  assert (Hr : page_add_points clk email amount order true w
               = update_customer_tier (now_year clk) (customer_id c)
                   (after_earn clk email order (customer_id c) p w)).
  { rewrite page_add_points_run.
    rewrite (nonempty_is_truthy email Hemail),
            (nonempty_is_truthy order Horder), Hamount. cbn [orb].
    rewrite Hc, Hp. reflexivity. }
  assert (He : points_earned (now_year clk) (customer_id c) (db w')
               = points_earned (now_year clk) (customer_id c) (db w)
                 + (if dt_year t =? now_year clk then p else 0)).
  { subst w'. rewrite Hr, points_earned_after_tier_update.
    unfold points_earned, after_earn. cbn [db].
    rewrite earn_entries_after_insert, sum_points_app. f_equal.
    unfold earn_entries_in_year.
    cbn [PointsLedger filter ledger_customer_id transaction_type timestamp].
    rewrite Z.eqb_refl, Hnow, (text_between_year t _ Ht Hyear).
    cbn [String.eqb andb].
    change (String.eqb "earn" "earn") with true. cbn [andb].
    destruct (dt_year t =? now_year clk); cbn; lia. }
  split; [exact He|].
  destruct (email_found_has_tier _ _ _ Hc) as [cur Hcur].
  subst w'. rewrite Hr.
  rewrite (update_customer_tier_stores (now_year clk) (customer_id c)
             (after_earn clk email order (customer_id c) p w) cur Hcur).
  unfold spending_of. rewrite tier_for_points.
  rewrite points_earned_after_tier_update. reflexivity.
Qed.

Lemma purchase_counts_when_the_clocks_agree_witness :
  valid_datetime (mkDatetime 2025 1 1 0 30 0)
  /\ 1000 <= 2024 <= 9999
  /\ points_earned 2024 1
       (db (snd (page_add_points (mkClock 2024 "2025-01-01 00:30:00")
                   "alice@example.com" 100%float "A-1" true w_due)))
     = points_earned 2024 1 (db w_due)
       + (if dt_year (mkDatetime 2025 1 1 0 30 0) =? 2024 then 1000 else 0).
Proof.
  assert (V : valid_datetime (mkDatetime 2025 1 1 0 30 0))
    by (unfold valid_datetime; cbn; lia).
  split; [exact V|]. split; [lia|].
  refine (proj1 (purchase_counts_when_the_clocks_agree
                   (mkClock 2024 "2025-01-01 00:30:00") "alice@example.com"
                   "A-1" 100%float w_due alice 1000
                   (mkDatetime 2025 1 1 0 30 0) _ _ eq_refl eq_refl eq_refl V
                   eq_refl _)); try discriminate. cbn. lia.
Defined.
